(** * routes/auth.js: the Okta authentication gateway, embedded in Rocq

    The six Express handlers of [src/routes/auth.js] are embedded as programs
    of a small free monad whose only effects are the ones the handlers have:
    an awaited axios call to the identity provider, [console.error], and a
    thrown exception caught by the handler's [try]/[catch].  Running a
    program against an arbitrary upstream yields the response handed to
    [res.status(..).json(..)] together with the list of upstream calls made,
    in order. *)

From Stdlib Require Import String Ascii List ZArith Bool Lia.
From Stdlib Require Import DecimalString DecimalZ.
From ExtLib Require Import Structures.Monad Structures.MonadExc.
Import ListNotations.
Import MonadNotation.
Open Scope string_scope.
Open Scope monad_scope.

(** ** JavaScript values *)

(** The values that reach the handlers: what a body parser or axios produces
    from JSON (plus [undefined]), and the built-in function objects that a
    property read can reach through a prototype ([JNative]).  Numbers are
    represented by their integer values: the handlers only copy numbers and
    test them for truthiness. *)
#[warnings="-register-all"]
Inductive JsValue : Type :=
| JUndefined
| JNull
| JBool (b : bool)
| JNum (n : Z)
| JStr (s : string)
| JArr (items : list JsValue)
| JObj (props : list (string * JsValue))
| JNative (name : string).

(** An object is its own properties in enumeration order, as
    [Object.entries] lists them. *)
Definition JsObject := list (string * JsValue).

Definition Object_entries (o : JsObject) : list (string * JsValue) := o.
Definition Object_keys (o : JsObject) : list string := map fst o.

(** [!!v] *)
Definition truthy (v : JsValue) : bool :=
  match v with
  | JUndefined | JNull => false
  | JBool b => b
  | JNum n => negb (n =? 0)%Z
  | JStr s => negb (s =? "")
  | JArr _ | JObj _ | JNative _ => true
  end.

(** [v !== undefined] *)
Definition not_undefined (v : JsValue) : bool :=
  match v with JUndefined => false | _ => true end.

Fixpoint own_get (o : JsObject) (key : string) : option JsValue :=
  match o with
  | [] => None
  | (k, v) :: rest => if k =? key then Some v else own_get rest key
  end.

(** [o[key] = value] on an ordinary object: an existing own property keeps
    its place, a new one is added last.  (None of the keys the handlers
    assign is an integer index or [__proto__].) *)
Fixpoint js_set (o : JsObject) (key : string) (value : JsValue) : JsObject :=
  match o with
  | [] => [(key, value)]
  | (k, v) :: rest =>
      if k =? key then (k, value) :: rest else (k, v) :: js_set rest key value
  end.

(** The function-valued properties of [Object.prototype]. *)
Definition Object_prototype_methods : JsObject :=
  [ ("constructor", JNative "Object");
    ("__defineGetter__", JNative "__defineGetter__");
    ("__defineSetter__", JNative "__defineSetter__");
    ("hasOwnProperty", JNative "hasOwnProperty");
    ("__lookupGetter__", JNative "__lookupGetter__");
    ("__lookupSetter__", JNative "__lookupSetter__");
    ("isPrototypeOf", JNative "isPrototypeOf");
    ("propertyIsEnumerable", JNative "propertyIsEnumerable");
    ("toString", JNative "toString");
    ("valueOf", JNative "valueOf");
    ("toLocaleString", JNative "toLocaleString") ].

(** What a read of each property of [Object.prototype] yields on an object
    literal or a parsed JSON object; the [__proto__] accessor yields
    [Object.prototype] itself. *)
Definition Object_prototype : JsObject :=
  (Object_prototype_methods
     ++ [ ("__proto__", JObj Object_prototype_methods) ])%list.

(** Of [String.prototype], the one member whose name this file reads
    ([userInfo.sub]). *)
Definition String_prototype : JsObject := [ ("sub", JNative "sub") ].

Definition inherited (proto : JsObject) (key : string) : JsValue :=
  match own_get proto key with
  | Some v => v
  | None => JUndefined
  end.

(** [o[key]] / [o.key] on an object literal or a parsed JSON object: own
    properties first, then [Object.prototype]. *)
Definition js_get (o : JsObject) (key : string) : JsValue :=
  match own_get o key with
  | Some v => v
  | None => inherited Object_prototype key
  end.

(** ** Exceptions and axios results *)

Record AxiosResponse : Type := mkAxiosResponse {
  resp_status : Z;
  resp_data : JsValue
}.

(** What a [catch (error)] clause receives: [error.response] is set on an
    axios rejection that carries an HTTP response, and absent on network
    failures and on the [TypeError]s raised by the handler's own code. *)
Record JsError : Type := mkJsError {
  error_response : option AxiosResponse;
  error_message : string
}.

Definition TypeError (msg : string) : JsError := mkJsError None msg.

(** [v.key] for an arbitrary value [v]: reading a property of [undefined] or
    [null] throws.  (Of the prototypes of strings, numbers, booleans and
    arrays only the members whose names this file reads are listed.) *)
Definition GetV (v : JsValue) (key : string) : JsError + JsValue :=
  match v with
  | JUndefined =>
      inl (TypeError ("Cannot read properties of undefined (reading '"
                        ++ key ++ "')"))
  | JNull =>
      inl (TypeError ("Cannot read properties of null (reading '"
                        ++ key ++ "')"))
  | JObj props => inr (js_get props key)
  | JStr _ => inr (inherited (String_prototype ++ Object_prototype)%list key)
  | _ => inr (inherited Object_prototype key)
  end.

(** Number::toString on integer values, in plain decimal: what JavaScript
    prints for an integer below 1e21 in magnitude.  (From 1e21 on
    JavaScript turns to exponent form, which is not reproduced; only the
    digits spliced into a URL or a form value depend on it.) *)
Definition Number_toString (n : Z) : string :=
  NilZero.string_of_int (Z.to_int n).

(** ToString, as applied by a template literal, by [URLSearchParams] and by
    a computed property key.  [None] stands for the [TypeError] thrown when
    an object cannot be converted to a primitive: a parsed JSON object whose
    own [toString] property is not callable. *)
Fixpoint ToString (v : JsValue) : option string :=
  match v with
  | JUndefined => Some "undefined"
  | JNull => Some "null"
  | JBool true => Some "true"
  | JBool false => Some "false"
  | JNum n => Some (Number_toString n)
  | JStr s => Some s
  | JArr items =>
      (fix join (l : list JsValue) : option string :=
         match l with
         | [] => Some ""
         | x :: rest =>
             let elem := match x with
                         | JUndefined | JNull => Some ""
                         | _ => ToString x
                         end in
             match elem, rest with
             | None, _ => None
             | Some s, [] => Some s
             | Some s, _ :: _ =>
                 match join rest with
                 | Some t => Some (s ++ "," ++ t)
                 | None => None
                 end
             end
         end) items
  | JObj props =>
      match own_get props "toString" with
      | None | Some (JNative _) => Some "[object Object]"
      | Some _ => None
      end
  | JNative name => Some ("function " ++ name ++ "() { [native code] }")
  end.

(** ** The effects of a handler *)

Inductive Method : Type := GET | POST.

(** The [data] argument of an axios call: a JavaScript object sent as JSON,
    the name/value pairs of a [URLSearchParams] (whose [toString()] is their
    form-urlencoded serialisation), or nothing. *)
Inductive AxiosData : Type :=
| NoData
| JsonData (v : JsValue)
| FormData (pairs : list (string * string)).

Record AxiosRequest : Type := mkAxiosRequest {
  req_method : Method;
  req_url : string;
  req_data : AxiosData;
  req_headers : list (string * string)
}.

Inductive AxiosOutcome : Type :=
| Resolved (response : AxiosResponse)
| Rejected (error : JsError).

Inductive Prog (A : Type) : Type :=
| Ret (a : A)
| Throw (e : JsError)
| Await (r : AxiosRequest) (k : AxiosOutcome -> Prog A)
| ConsoleError (label : string) (detail : JsValue) (k : Prog A).

Arguments Ret {A} a.
Arguments Throw {A} e.
Arguments Await {A} r k.
Arguments ConsoleError {A} label detail k.

Fixpoint Prog_bind {A B : Type} (p : Prog A) (f : A -> Prog B) : Prog B :=
  match p with
  | Ret a => f a
  | Throw e => Throw e
  | Await r k => Await r (fun o => Prog_bind (k o) f)
  | ConsoleError l d k => ConsoleError l d (Prog_bind k f)
  end.

(** [try { p } catch (error) { h error }] *)
Fixpoint try_catch {A : Type} (p : Prog A) (h : JsError -> Prog A) : Prog A :=
  match p with
  | Ret a => Ret a
  | Throw e => h e
  | Await r k => Await r (fun o => try_catch (k o) h)
  | ConsoleError l d k => ConsoleError l d (try_catch k h)
  end.

#[export] Instance Monad_Prog : Monad Prog :=
  {| ret := @Ret; bind := @Prog_bind |}.

#[export] Instance MonadExc_Prog : MonadExc JsError Prog :=
  {| raise := @Throw; catch := @try_catch |}.

(** [await axios(request)]: a rejected promise is thrown at the [await]. *)
Definition axios (r : AxiosRequest) : Prog AxiosResponse :=
  Await r (fun o => match o with
                    | Resolved response => Ret response
                    | Rejected error => Throw error
                    end).

Definition axios_get (url : string) (headers : list (string * string))
  : Prog AxiosResponse :=
  axios (mkAxiosRequest GET url NoData headers).

Definition axios_post (url : string) (data : AxiosData)
  (headers : list (string * string)) : Prog AxiosResponse :=
  axios (mkAxiosRequest POST url data headers).

Definition console_error (label : string) (detail : JsValue) : Prog unit :=
  ConsoleError label detail (Ret tt).

Definition lift {A : Type} (x : JsError + A) : Prog A :=
  match x with
  | inl e => Throw e
  | inr a => Ret a
  end.

(** A value interpolated into a template literal. *)
Definition interpolate (v : JsValue) : Prog string :=
  match ToString v with
  | Some s => Ret s
  | None => Throw (TypeError "Cannot convert object to primitive value")
  end.

(** *** Running a program against the identity provider *)

(** The provider answers each request, possibly depending on the requests
    it has already received. *)
Definition Upstream := list AxiosRequest -> AxiosRequest -> AxiosOutcome.

Record Run (A : Type) : Type := mkRun {
  outcome : JsError + A;
  calls : list AxiosRequest;
  console : list (string * JsValue)
}.

Arguments mkRun {A} outcome calls console.
Arguments outcome {A} r.
Arguments calls {A} r.
Arguments console {A} r.

Fixpoint exec {A : Type} (p : Prog A) (up : Upstream)
  (made : list AxiosRequest) (logged : list (string * JsValue)) : Run A :=
  match p with
  | Ret a => mkRun (inr a) made logged
  | Throw e => mkRun (inl e) made logged
  | Await r k => exec (k (up made r)) up (made ++ [r])%list logged
  | ConsoleError l d k => exec k up made (logged ++ [(l, d)])%list
  end.

Definition run {A : Type} (p : Prog A) (up : Upstream) : Run A :=
  exec p up [] [].

(** ** Configuration, requests and responses *)

(** [process.env] entries: a string, or [undefined] when unset. *)
Record Config : Type := mkConfig {
  OKTA_DOMAIN : option string;
  OKTA_API_TOKEN : option string;
  CLIENT_ID : option string;
  CLIENT_SECRET : option string;
  REDIRECT_URI : option string
}.

Definition env_value (o : option string) : JsValue :=
  match o with
  | Some s => JStr s
  | None => JUndefined
  end.

(** A string-or-undefined inside a template literal. *)
Definition env (o : option string) : string :=
  match o with
  | Some s => s
  | None => "undefined"
  end.

Definition oktaHeaders (cfg : Config) : list (string * string) :=
  [ ("Accept", "application/json");
    ("Content-Type", "application/json");
    ("Authorization", "SSWS " ++ env (OKTA_API_TOKEN cfg)) ].

(** The parts of an Express request the handlers read:
    [req.headers.authorization] and [req.body], for a request whose
    [req.body] is an object, as a body parser leaves it.  A request on
    which no parser has run, whose [req.body] is [undefined], is an
    [ExpressRequest] below. *)
Record Request : Type := mkRequest {
  headers_authorization : option string;
  body : JsObject
}.

(** [res.status(status).json(json)] *)
Record Response : Type := mkResponse {
  status : Z;
  json : JsObject
}.

Definition res (status : Z) (json : JsObject) : Prog Response :=
  ret (mkResponse status json).

(** [error.response?.data] *)
Definition error_response_data (error : JsError) : JsValue :=
  match error_response error with
  | Some r => resp_data r
  | None => JUndefined
  end.

(** [v?.key] *)
Definition optional_get (v : JsValue) (key : string) : JsValue :=
  match GetV v key with
  | inr x => x
  | inl _ => JUndefined
  end.

(** [error.response.data] *)
Definition response_data (error : JsError) : JsError + JsValue :=
  match error_response error with
  | Some r => inr (resp_data r)
  | None => inl (TypeError "Cannot read properties of undefined (reading 'data')")
  end.

(** [error.response?.data || error.message] *)
Definition error_detail (error : JsError) : JsValue :=
  let data := error_response_data error in
  if truthy data then data else JStr (error_message error).

(** [new URLSearchParams(record)]: every value is converted to a string. *)
Fixpoint URLSearchParams (record : JsObject) : Prog (list (string * string)) :=
  match record with
  | [] => ret []
  | (name, value) :: rest =>
      s <- interpolate value ;;
      pairs <- URLSearchParams rest ;;
      ret ((name, s) :: pairs)
  end.

(** [s.split(' ')] *)
Fixpoint split_space (s : string) : list string :=
  match s with
  | EmptyString => [ "" ]
  | String c rest =>
      if (c =? " ")%char then "" :: split_space rest
      else match split_space rest with
           | [] => [ String c "" ]
           | w :: ws => String c w :: ws
           end
  end.

(** [!authHeader || !authHeader.startsWith('Bearer ')] *)
Definition no_bearer (authHeader : option string) : bool :=
  match authHeader with
  | None => true
  | Some h => negb (truthy (JStr h)) || negb (String.prefix "Bearer " h)
  end.

(** [authHeader.split(' ')[1]] *)
Definition bearer_token (authHeader : option string) : option string :=
  match authHeader with
  | None => None
  | Some h => nth_error (split_space h) 1
  end.

(** [for (const x of l) { s = step x s }] *)
Fixpoint for_of {X S : Type} (l : list X) (step : X -> S -> Prog S) (s : S)
  : Prog S :=
  match l with
  | [] => ret s
  | x :: rest => s' <- step x s ;; for_of rest step s'
  end.

(** ** The handlers *)

(** [router.post('/signup')] *)
Definition signup (cfg : Config) (req : Request) : Prog Response :=
  catch
    (let firstName := js_get (body req) "firstName" in
     let lastName := js_get (body req) "lastName" in
     let email := js_get (body req) "email" in
     let password := js_get (body req) "password" in
     if negb (truthy firstName) || negb (truthy lastName)
        || negb (truthy email) || negb (truthy password)
     then res 400 [ ("success", JBool false);
                    ("message", JStr "Missing required fields") ]
     else
       let newUser :=
         JObj [ ("profile", JObj [ ("firstName", firstName);
                                   ("lastName", lastName);
                                   ("email", email);
                                   ("login", email) ]);
                ("credentials",
                 JObj [ ("password", JObj [ ("value", password) ]) ]) ] in
       response <- axios_post
                     (env (OKTA_DOMAIN cfg) ++ "/api/v1/users?activate=true")
                     (JsonData newUser) (oktaHeaders cfg) ;;
       id <- lift (GetV (resp_data response) "id") ;;
       res 201 [ ("success", JBool true);
                 ("message", JStr "User created successfully");
                 ("userId", id) ])
    (fun error =>
       console_error "Signup error:" (error_detail error) ;;
       if truthy (optional_get (error_response_data error) "errorCauses")
       then
         data <- lift (response_data error) ;;
         errorSummary <- lift (GetV data "errorSummary") ;;
         errorCauses <- lift (GetV data "errorCauses") ;;
         res 400 [ ("success", JBool false);
                   ("message", errorSummary);
                   ("errors", errorCauses) ]
       else
         res 500 [ ("success", JBool false);
                   ("message", JStr "Error creating user account") ]).

(** [router.post('/login')] *)
Definition login (cfg : Config) (req : Request) : Prog Response :=
  catch
    (let username := js_get (body req) "username" in
     let password := js_get (body req) "password" in
     if negb (truthy username) || negb (truthy password)
     then res 400 [ ("success", JBool false);
                    ("message", JStr "Username and password are required") ]
     else
       let authData :=
         [ ("username", username);
           ("password", password);
           ("grant_type", JStr "password");
           ("client_id", env_value (CLIENT_ID cfg));
           ("client_secret", env_value (CLIENT_SECRET cfg));
           ("scope", JStr "openid profile email") ] in
       formData <- URLSearchParams authData ;;
       response <- axios_post
                     (env (OKTA_DOMAIN cfg) ++ "/oauth2/v1/token")
                     (FormData formData)
                     [ ("Accept", "application/json");
                       ("Content-Type", "application/x-www-form-urlencoded") ] ;;
       access_token <- lift (GetV (resp_data response) "access_token") ;;
       id_token <- lift (GetV (resp_data response) "id_token") ;;
       expires_in <- lift (GetV (resp_data response) "expires_in") ;;
       res 200 [ ("success", JBool true);
                 ("message", JStr "Login successful");
                 ("token", access_token);
                 ("id_token", id_token);
                 ("expires_in", expires_in) ])
    (fun error =>
       console_error "Login error:" (error_detail error) ;;
       res 401 [ ("success", JBool false);
                 ("message", JStr "Authentication failed") ]).

(** [router.get('/profile')] *)
Definition get_profile (cfg : Config) (req : Request) : Prog Response :=
  catch
    (let authHeader := headers_authorization req in
     if no_bearer authHeader
     then res 401 [ ("success", JBool false);
                    ("message", JStr "No token provided") ]
     else
       let token := bearer_token authHeader in
       response <- axios_get
                     (env (OKTA_DOMAIN cfg) ++ "/oauth2/v1/userinfo")
                     [ ("Authorization", "Bearer " ++ env token) ] ;;
       res 200 [ ("success", JBool true);
                 ("profile", resp_data response) ])
    (fun error =>
       console_error "Profile fetch error:" (error_detail error) ;;
       res 401 [ ("success", JBool false);
                 ("message", JStr "Failed to fetch user profile") ]).

(** Map of allowed profile fields and their corresponding Okta profile
    fields. *)
Definition allowedFields : JsObject :=
  [ ("firstName", JStr "firstName");
    ("lastName", JStr "lastName");
    ("middleName", JStr "middleName");
    ("honorificPrefix", JStr "honorificPrefix");
    ("honorificSuffix", JStr "honorificSuffix");
    ("email", JStr "email");
    ("title", JStr "title");
    ("displayName", JStr "displayName");
    ("nickName", JStr "nickName");
    ("profileUrl", JStr "profileUrl");
    ("secondEmail", JStr "secondEmail");
    ("mobilePhone", JStr "mobilePhone");
    ("primaryPhone", JStr "primaryPhone");
    ("streetAddress", JStr "streetAddress");
    ("city", JStr "city");
    ("state", JStr "state");
    ("zipCode", JStr "zipCode");
    ("countryCode", JStr "countryCode");
    ("postalAddress", JStr "postalAddress");
    ("preferredLanguage", JStr "preferredLanguage");
    ("locale", JStr "locale");
    ("timezone", JStr "timezone");
    ("userType", JStr "userType");
    ("employeeNumber", JStr "employeeNumber");
    ("costCenter", JStr "costCenter");
    ("organization", JStr "organization");
    ("division", JStr "division");
    ("department", JStr "department");
    ("managerId", JStr "managerId");
    ("manager", JStr "manager") ].

(** The body of the loop over the entries of [req.body]:
    [if (allowedFields[key] && value !== undefined)
       profileUpdate.profile[allowedFields[key]] = value;] *)
Definition copy_field (entry : string * JsValue) (profile : JsObject)
  : Prog JsObject :=
  let '(key, value) := entry in
  if truthy (js_get allowedFields key) && not_undefined value
  then
    field <- interpolate (js_get allowedFields key) ;;
    ret (js_set profile field value)
  else ret profile.

(** [for (const [key, value] of Object.entries(o)) ...], starting from the
    empty [profileUpdate.profile]. *)
Definition fill_profile (o : JsObject) : Prog JsObject :=
  for_of (Object_entries o) copy_field [].

(** [router.put('/profile')] *)
Definition update_profile (cfg : Config) (req : Request) : Prog Response :=
  catch
    (let authHeader := headers_authorization req in
     if no_bearer authHeader
     then res 401 [ ("success", JBool false);
                    ("message", JStr "No token provided") ]
     else
       let token := bearer_token authHeader in
       fetched <-
         catch
           (userInfoResponse <- axios_get
                                  (env (OKTA_DOMAIN cfg) ++ "/oauth2/v1/userinfo")
                                  [ ("Authorization", "Bearer " ++ env token) ] ;;
            ret (inr (resp_data userInfoResponse)))
           (fun _ =>
              ret (inl (mkResponse 401 [ ("success", JBool false);
                                         ("message", JStr "Invalid token") ]))) ;;
       match fetched with
       | inl response => ret response
       | inr userInfo =>
           userId <- lift (GetV userInfo "sub") ;;
           profile <- fill_profile (body req) ;;
           if (length (Object_keys profile) =? 0)%nat
           then res 400 [ ("success", JBool false);
                          ("message", JStr "No valid fields to update") ]
           else
             let profile :=
               if truthy (js_get (body req) "login")
               then js_set profile "login" (js_get (body req) "login")
               else profile in
             let profileUpdate := JObj [ ("profile", JObj profile) ] in
             id <- interpolate userId ;;
             _ <- axios_post
                    (env (OKTA_DOMAIN cfg) ++ "/api/v1/users/" ++ id)
                    (JsonData profileUpdate) (oktaHeaders cfg) ;;
             res 200 [ ("success", JBool true);
                       ("message", JStr "Profile updated successfully") ]
       end)
    (fun error =>
       console_error "Profile update error:" (error_detail error) ;;
       if truthy (optional_get (error_response_data error) "errorCauses")
       then
         data <- lift (response_data error) ;;
         errorSummary <- lift (GetV data "errorSummary") ;;
         errorCauses <- lift (GetV data "errorCauses") ;;
         res 400 [ ("success", JBool false);
                   ("message", errorSummary);
                   ("errors", errorCauses) ]
       else
         res 500 [ ("success", JBool false);
                   ("message", JStr "Failed to update profile") ]).

(** [router.post('/reset-password')] *)
Definition reset_password (cfg : Config) (req : Request) : Prog Response :=
  catch
    (let email := js_get (body req) "email" in
     if negb (truthy email)
     then res 400 [ ("success", JBool false);
                    ("message", JStr "Email is required") ]
     else
       user <- interpolate email ;;
       _ <- axios_post
              (env (OKTA_DOMAIN cfg) ++ "/api/v1/users/" ++ user
                 ++ "/lifecycle/reset_password?sendEmail=true")
              (JsonData (JObj [])) (oktaHeaders cfg) ;;
       res 200 [ ("success", JBool true);
                 ("message", JStr "Password reset email sent") ])
    (fun error =>
       console_error "Password reset error:" (error_detail error) ;;
       res 400 [ ("success", JBool false);
                 ("message", JStr "Failed to send password reset email") ]).

(** [router.post('/logout')] *)
Definition logout (cfg : Config) (req : Request) : Prog Response :=
  catch
    (let token := js_get (body req) "token" in
     if negb (truthy token)
     then res 400 [ ("success", JBool false);
                    ("message", JStr "Token is required") ]
     else
       revokeData <- URLSearchParams
                       [ ("token", token);
                         ("client_id", env_value (CLIENT_ID cfg));
                         ("client_secret", env_value (CLIENT_SECRET cfg));
                         ("token_type_hint", JStr "access_token") ] ;;
       _ <- axios_post
              (env (OKTA_DOMAIN cfg) ++ "/oauth2/v1/revoke")
              (FormData revokeData)
              [ ("Content-Type", "application/x-www-form-urlencoded") ] ;;
       res 200 [ ("success", JBool true);
                 ("message", JStr "Logged out successfully") ])
    (fun error =>
       console_error "Logout error:" (error_detail error) ;;
       res 500 [ ("success", JBool false);
                 ("message", JStr "Failed to logout") ]).

(** The response a handler sends when run against an upstream; [None] if an
    exception escaped the handler. *)
Definition response_of (r : Run Response) : option Response :=
  match outcome r with
  | inr resp => Some resp
  | inl _ => None
  end.

(** * Vocabulary of the properties *)

(** ** Responses and requests *)

(** [{success: false, message}] and [{success: true, message}] *)
Definition failure (code : Z) (message : string) : Response :=
  mkResponse code [ ("success", JBool false); ("message", JStr message) ].

Definition success (code : Z) (message : string) : Response :=
  mkResponse code [ ("success", JBool true); ("message", JStr message) ].

(** The one answer to a failed login. *)
Definition authentication_failed : Response :=
  failure 401 "Authentication failed".

(** The call each handler makes, as a function of what it was given. *)
Definition create_user_request (cfg : Config) (o : JsObject) : AxiosRequest :=
  mkAxiosRequest POST (env (OKTA_DOMAIN cfg) ++ "/api/v1/users?activate=true")
    (JsonData
       (JObj [ ("profile", JObj [ ("firstName", js_get o "firstName");
                                  ("lastName", js_get o "lastName");
                                  ("email", js_get o "email");
                                  ("login", js_get o "email") ]);
               ("credentials",
                JObj [ ("password", JObj [ ("value", js_get o "password") ]) ]) ]))
    (oktaHeaders cfg).

Definition userinfo_request (cfg : Config) (authHeader : option string)
  : AxiosRequest :=
  mkAxiosRequest GET (env (OKTA_DOMAIN cfg) ++ "/oauth2/v1/userinfo") NoData
    [ ("Authorization", "Bearer " ++ env (bearer_token authHeader)) ].

Definition profile_patch_request (cfg : Config) (id : string)
  (profile : JsObject) : AxiosRequest :=
  mkAxiosRequest POST (env (OKTA_DOMAIN cfg) ++ "/api/v1/users/" ++ id)
    (JsonData (JObj [ ("profile", JObj profile) ])) (oktaHeaders cfg).

Definition reset_request (cfg : Config) (user : string) : AxiosRequest :=
  mkAxiosRequest POST
    (env (OKTA_DOMAIN cfg) ++ "/api/v1/users/" ++ user
       ++ "/lifecycle/reset_password?sendEmail=true")
    (JsonData (JObj [])) (oktaHeaders cfg).

(** ** Request bodies *)

(** Field names of a request body that are [undefined], [null], [false],
    [0] or the empty string are the ones the handlers treat as missing. *)
Definition absent (o : JsObject) (key : string) : bool :=
  negb (truthy (js_get o key)).

(** A name that every object literal and parsed JSON object inherits from
    [Object.prototype]. *)
Definition inherited_name (key : string) : bool :=
  match own_get Object_prototype key with
  | Some _ => true
  | None => false
  end.

(** The four required fields of a signup are all present. *)
Definition signup_valid (o : JsObject) : bool :=
  negb (absent o "firstName" || absent o "lastName"
        || absent o "email" || absent o "password").

(** [key] is one of the keys written in [allowedFields]. *)
Definition in_allow_list (key : string) : bool :=
  match own_get allowedFields key with
  | Some _ => true
  | None => false
  end.

(** The entries the loop is meant to copy. *)
Definition copied (entry : string * JsValue) : bool :=
  in_allow_list (fst entry) && not_undefined (snd entry).

(** A body no key of which is a name inherited from [Object.prototype]. *)
Definition plain_keys (o : JsObject) : Prop :=
  Forall (fun key => inherited_name key = false) (Object_keys o).

(** A body key the handler has no use for: not in the allow-list, not
    [login], and not a name inherited from [Object.prototype]. *)
Definition unknown (key : string) : bool :=
  negb (in_allow_list key) && negb (key =? "login")
  && negb (inherited_name key).

(** The body with those entries removed. *)
Definition without_unknown (o : JsObject) : JsObject :=
  filter (fun entry => negb (unknown (fst entry))) o.

(** The special case for [login]. *)
Definition with_login (o profile : JsObject) : JsObject :=
  if truthy (js_get o "login")
  then js_set profile "login" (js_get o "login")
  else profile.

(** ** Upstream behaviour *)

(** A program that finishes without awaiting anything. *)
Definition settled {A : Type} (p : Prog A) : Prop :=
  (exists a, p = Ret a) \/ (exists e, p = Throw e).

(** Every upstream call that the run of [p] against [up] made was
    rejected.  (Only the first call of a run is asked about: the handlers
    this is used for make at most one.) *)
Definition upstream_failed {A : Type} (p : Prog A) (up : Upstream) : Prop :=
  forall r, In r (calls (run p up)) -> exists e, up [] r = Rejected e.

(** The userinfo call of the run resolved with a body whose [sub] can be
    read. *)
Definition userinfo_sub (cfg : Config) (req : Request) (up : Upstream)
  (sub : JsValue) : Prop :=
  no_bearer (headers_authorization req) = false
  /\ exists resp,
      up [] (userinfo_request cfg (headers_authorization req)) = Resolved resp
      /\ GetV (resp_data resp) "sub" = inr sub.

(** ... and that [sub] is interpolated into the URL of the patch call as
    [id]. *)
Definition subject (cfg : Config) (req : Request) (up : Upstream)
  (id : string) : Prop :=
  exists sub, userinfo_sub cfg req up sub /\ ToString sub = Some id.

(** ** Concrete configurations, upstreams and requests *)

Definition cfg0 : Config :=
  mkConfig (Some "https://dev-1.okta.com") (Some "00api") (Some "0oaclient")
    (Some "secret") None.

(** An upstream that accepts every request and returns the same user. *)
Definition upstream_ok : Upstream :=
  fun _ _ =>
    Resolved (mkAxiosResponse 200
                (JObj [ ("id", JStr "00u1"); ("sub", JStr "00u1") ])).

(** An upstream that rejects every request with the given response body. *)
Definition upstream_rejects (code : Z) (data : JsValue) : Upstream :=
  fun _ _ =>
    Rejected (mkJsError (Some (mkAxiosResponse code data))
                "Request failed").

(** An upstream that cannot be reached. *)
Definition upstream_down : Upstream :=
  fun _ _ => Rejected (mkJsError None "connect ECONNREFUSED").

Definition signup_request : Request :=
  mkRequest None [ ("firstName", JStr "Ada"); ("lastName", JStr "Lovelace");
                   ("email", JStr "ada@example.com");
                   ("password", JStr "s3cret!"); ("login", JStr "root") ].

Definition login_request : Request :=
  mkRequest None [ ("username", JStr "ada@example.com");
                   ("password", JStr "wrong") ].

Definition invalid_credentials : JsValue :=
  JObj [ ("error", JStr "invalid_grant");
         ("error_description",
          JStr "The credentials provided were invalid.") ].

Definition empty_request : Request := mkRequest None [].

Definition bearer (o : JsObject) : Request :=
  mkRequest (Some "Bearer eyJraWQ") o.

(** ** Further vocabulary: the remaining calls and answers *)

(** The answer of the [catch] clause shared by Signup and Update Profile:
    the provider's validation error when the error carries truthy
    [errorCauses], the handler's own message otherwise. *)
Definition validation_response (message : string) (error : JsError)
  : Response :=
  if truthy (optional_get (error_response_data error) "errorCauses")
  then mkResponse 400
         [ ("success", JBool false);
           ("message", optional_get (error_response_data error) "errorSummary");
           ("errors", optional_get (error_response_data error) "errorCauses") ]
  else failure 500 message.

Definition token_request (cfg : Config) (username password : string)
  : AxiosRequest :=
  mkAxiosRequest POST (env (OKTA_DOMAIN cfg) ++ "/oauth2/v1/token")
    (FormData [ ("username", username);
                ("password", password);
                ("grant_type", "password");
                ("client_id", env (CLIENT_ID cfg));
                ("client_secret", env (CLIENT_SECRET cfg));
                ("scope", "openid profile email") ])
    [ ("Accept", "application/json");
      ("Content-Type", "application/x-www-form-urlencoded") ].

Definition revoke_request (cfg : Config) (token : string) : AxiosRequest :=
  mkAxiosRequest POST (env (OKTA_DOMAIN cfg) ++ "/oauth2/v1/revoke")
    (FormData [ ("token", token);
                ("client_id", env (CLIENT_ID cfg));
                ("client_secret", env (CLIENT_SECRET cfg));
                ("token_type_hint", "access_token") ])
    [ ("Content-Type", "application/x-www-form-urlencoded") ].

(** The six routes of the router. *)
Definition handlers : list (Config -> Request -> Prog Response) :=
  [ signup; login; get_profile; update_profile; reset_password; logout ].

(** The run of [p] ends in a response whose status is one of [codes] and
    whose [success] flag says whether that status is below 300. *)
Definition answers (p : Prog Response) (up : Upstream) (codes : list Z)
  : Prop :=
  exists resp b,
    response_of (run p up) = Some resp
    /\ In (status resp) codes
    /\ own_get (json resp) "success" = Some (JBool b)
    /\ b = (status resp <? 300)%Z.

(** [s] contains a space. *)
Fixpoint has_space (s : string) : bool :=
  match s with
  | EmptyString => false
  | String c rest => (c =? " ")%char || has_space rest
  end.

(** The two shapes of an upstream call, told apart by the text of the URL
    as the handler builds it: the configured domain followed by
    [/api/v1/users], a JSON POST with [oktaHeaders] (the [SSWS] API token);
    or the configured domain followed by [/oauth2/v1/], with no
    [Authorization] header but the caller's own bearer token.  What is
    spliced in after the prefix is not escaped, so this says nothing of
    where a path containing [..] resolves. *)
Definition management_call (cfg : Config) (r : AxiosRequest) : Prop :=
  req_method r = POST
  /\ req_headers r = oktaHeaders cfg
  /\ (exists rest,
         req_url r = env (OKTA_DOMAIN cfg) ++ "/api/v1/users" ++ rest)
  /\ exists v, req_data r = JsonData v.

Definition oauth_call (cfg : Config) (req : Request) (r : AxiosRequest)
  : Prop :=
  (exists rest, req_url r = env (OKTA_DOMAIN cfg) ++ "/oauth2/v1/" ++ rest)
  /\ forall v,
      In ("Authorization", v) (req_headers r) ->
      v = "Bearer " ++ env (bearer_token (headers_authorization req)).

(** ** Further concrete upstreams and configurations *)

(** An upstream that accepts every request and answers with a [null]
    body. *)
Definition upstream_null : Upstream :=
  fun _ _ => Resolved (mkAxiosResponse 200 JNull).

(** An upstream that knows the caller's token and refuses whatever comes
    after the userinfo call with a validation error. *)
Definition upstream_refuses_patch : Upstream :=
  fun made _ =>
    match made with
    | [] => Resolved (mkAxiosResponse 200 (JObj [ ("sub", JStr "00u1") ]))
    | _ =>
        Rejected
          (mkJsError
             (Some (mkAxiosResponse 400
                      (JObj [ ("errorSummary",
                               JStr "Api validation failed: mobilePhone");
                              ("errorCauses",
                               JArr [ JObj [ ("errorSummary",
                                              JStr "mobilePhone: Invalid phone number") ] ]) ])))
             "Request failed with status code 400")
    end.

(** A process started without any of its environment variables. *)
Definition cfg_unset : Config := mkConfig None None None None None.

(** ** The routes on a request whose body may not have been parsed *)

(** [req.body] is [undefined] on a request no body parser has run on, and
    this file mounts none; otherwise it is the object the parser left. *)
Record ExpressRequest : Type := mkExpressRequest {
  express_authorization : option string;
  express_body : option JsObject
}.

(** [const { first, ... } = req.body]: destructuring [undefined] throws
    before any property is read. *)
Definition destructure (first : string) (req : ExpressRequest)
  : JsError + JsObject :=
  match express_body req with
  | Some o => inr o
  | None =>
      inl (TypeError ("Cannot destructure property '" ++ first
                        ++ "' of 'req.body' as it is undefined."))
  end.

(** [Object.entries(req.body)] throws on [undefined]. *)
Definition entries_of_body (req : ExpressRequest) : JsError + JsObject :=
  match express_body req with
  | Some o => inr (Object_entries o)
  | None => inl (TypeError "Cannot convert undefined or null to object")
  end.

(** [req.body.key] *)
Definition body_property (req : ExpressRequest) (key : string)
  : JsError + JsValue :=
  match express_body req with
  | Some o => inr (js_get o key)
  | None =>
      inl (TypeError ("Cannot read properties of undefined (reading '"
                        ++ key ++ "')"))
  end.

(** [router.post('/signup')] *)
Definition signup_route (cfg : Config) (req : ExpressRequest)
  : Prog Response :=
  catch
    (o <- lift (destructure "firstName" req) ;;
     let firstName := js_get o "firstName" in
     let lastName := js_get o "lastName" in
     let email := js_get o "email" in
     let password := js_get o "password" in
     if negb (truthy firstName) || negb (truthy lastName)
        || negb (truthy email) || negb (truthy password)
     then res 400 [ ("success", JBool false);
                    ("message", JStr "Missing required fields") ]
     else
       let newUser :=
         JObj [ ("profile", JObj [ ("firstName", firstName);
                                   ("lastName", lastName);
                                   ("email", email);
                                   ("login", email) ]);
                ("credentials",
                 JObj [ ("password", JObj [ ("value", password) ]) ]) ] in
       response <- axios_post
                     (env (OKTA_DOMAIN cfg) ++ "/api/v1/users?activate=true")
                     (JsonData newUser) (oktaHeaders cfg) ;;
       id <- lift (GetV (resp_data response) "id") ;;
       res 201 [ ("success", JBool true);
                 ("message", JStr "User created successfully");
                 ("userId", id) ])
    (fun error =>
       console_error "Signup error:" (error_detail error) ;;
       if truthy (optional_get (error_response_data error) "errorCauses")
       then
         data <- lift (response_data error) ;;
         errorSummary <- lift (GetV data "errorSummary") ;;
         errorCauses <- lift (GetV data "errorCauses") ;;
         res 400 [ ("success", JBool false);
                   ("message", errorSummary);
                   ("errors", errorCauses) ]
       else
         res 500 [ ("success", JBool false);
                   ("message", JStr "Error creating user account") ]).

(** [router.post('/login')] *)
Definition login_route (cfg : Config) (req : ExpressRequest)
  : Prog Response :=
  catch
    (o <- lift (destructure "username" req) ;;
     let username := js_get o "username" in
     let password := js_get o "password" in
     if negb (truthy username) || negb (truthy password)
     then res 400 [ ("success", JBool false);
                    ("message", JStr "Username and password are required") ]
     else
       let authData :=
         [ ("username", username);
           ("password", password);
           ("grant_type", JStr "password");
           ("client_id", env_value (CLIENT_ID cfg));
           ("client_secret", env_value (CLIENT_SECRET cfg));
           ("scope", JStr "openid profile email") ] in
       formData <- URLSearchParams authData ;;
       response <- axios_post
                     (env (OKTA_DOMAIN cfg) ++ "/oauth2/v1/token")
                     (FormData formData)
                     [ ("Accept", "application/json");
                       ("Content-Type", "application/x-www-form-urlencoded") ] ;;
       access_token <- lift (GetV (resp_data response) "access_token") ;;
       id_token <- lift (GetV (resp_data response) "id_token") ;;
       expires_in <- lift (GetV (resp_data response) "expires_in") ;;
       res 200 [ ("success", JBool true);
                 ("message", JStr "Login successful");
                 ("token", access_token);
                 ("id_token", id_token);
                 ("expires_in", expires_in) ])
    (fun error =>
       console_error "Login error:" (error_detail error) ;;
       res 401 [ ("success", JBool false);
                 ("message", JStr "Authentication failed") ]).

(** [router.put('/profile')] *)
Definition update_profile_route (cfg : Config) (req : ExpressRequest)
  : Prog Response :=
  catch
    (let authHeader := express_authorization req in
     if no_bearer authHeader
     then res 401 [ ("success", JBool false);
                    ("message", JStr "No token provided") ]
     else
       let token := bearer_token authHeader in
       fetched <-
         catch
           (userInfoResponse <- axios_get
                                  (env (OKTA_DOMAIN cfg) ++ "/oauth2/v1/userinfo")
                                  [ ("Authorization", "Bearer " ++ env token) ] ;;
            ret (inr (resp_data userInfoResponse)))
           (fun _ =>
              ret (inl (mkResponse 401 [ ("success", JBool false);
                                         ("message", JStr "Invalid token") ]))) ;;
       match fetched with
       | inl response => ret response
       | inr userInfo =>
           userId <- lift (GetV userInfo "sub") ;;
           entries <- lift (entries_of_body req) ;;
           profile <- for_of entries copy_field [] ;;
           if (length (Object_keys profile) =? 0)%nat
           then res 400 [ ("success", JBool false);
                          ("message", JStr "No valid fields to update") ]
           else
             login <- lift (body_property req "login") ;;
             let profile :=
               if truthy login
               then js_set profile "login" login
               else profile in
             let profileUpdate := JObj [ ("profile", JObj profile) ] in
             id <- interpolate userId ;;
             _ <- axios_post
                    (env (OKTA_DOMAIN cfg) ++ "/api/v1/users/" ++ id)
                    (JsonData profileUpdate) (oktaHeaders cfg) ;;
             res 200 [ ("success", JBool true);
                       ("message", JStr "Profile updated successfully") ]
       end)
    (fun error =>
       console_error "Profile update error:" (error_detail error) ;;
       if truthy (optional_get (error_response_data error) "errorCauses")
       then
         data <- lift (response_data error) ;;
         errorSummary <- lift (GetV data "errorSummary") ;;
         errorCauses <- lift (GetV data "errorCauses") ;;
         res 400 [ ("success", JBool false);
                   ("message", errorSummary);
                   ("errors", errorCauses) ]
       else
         res 500 [ ("success", JBool false);
                   ("message", JStr "Failed to update profile") ]).

(** [router.post('/reset-password')] *)
Definition reset_password_route (cfg : Config) (req : ExpressRequest)
  : Prog Response :=
  catch
    (o <- lift (destructure "email" req) ;;
     let email := js_get o "email" in
     if negb (truthy email)
     then res 400 [ ("success", JBool false);
                    ("message", JStr "Email is required") ]
     else
       user <- interpolate email ;;
       _ <- axios_post
              (env (OKTA_DOMAIN cfg) ++ "/api/v1/users/" ++ user
                 ++ "/lifecycle/reset_password?sendEmail=true")
              (JsonData (JObj [])) (oktaHeaders cfg) ;;
       res 200 [ ("success", JBool true);
                 ("message", JStr "Password reset email sent") ])
    (fun error =>
       console_error "Password reset error:" (error_detail error) ;;
       res 400 [ ("success", JBool false);
                 ("message", JStr "Failed to send password reset email") ]).

(** [router.post('/logout')] *)
Definition logout_route (cfg : Config) (req : ExpressRequest)
  : Prog Response :=
  catch
    (o <- lift (destructure "token" req) ;;
     let token := js_get o "token" in
     if negb (truthy token)
     then res 400 [ ("success", JBool false);
                    ("message", JStr "Token is required") ]
     else
       revokeData <- URLSearchParams
                       [ ("token", token);
                         ("client_id", env_value (CLIENT_ID cfg));
                         ("client_secret", env_value (CLIENT_SECRET cfg));
                         ("token_type_hint", JStr "access_token") ] ;;
       _ <- axios_post
              (env (OKTA_DOMAIN cfg) ++ "/oauth2/v1/revoke")
              (FormData revokeData)
              [ ("Content-Type", "application/x-www-form-urlencoded") ] ;;
       res 200 [ ("success", JBool true);
                 ("message", JStr "Logged out successfully") ])
    (fun error =>
       console_error "Logout error:" (error_detail error) ;;
       res 500 [ ("success", JBool false);
                 ("message", JStr "Failed to logout") ]).

(** The request a route sees once a parser has left the object [o] in
    [req.body]. *)
Definition parsed (authHeader : option string) (o : JsObject)
  : ExpressRequest :=
  mkExpressRequest authHeader (Some o).

(** The request a route sees when no parser has run. *)
Definition unparsed (authHeader : option string) : ExpressRequest :=
  mkExpressRequest authHeader None.

(** * Properties *)

(** ** Facts about the embedding *)

(** A run only ever extends the list of calls already made. *)
Lemma exec_calls_incl {A : Type} (p : Prog A) (up : Upstream) :
  forall made logged r,
    In r made -> In r (calls (exec p up made logged)).
Proof.
  induction p as [a|e|r0 k IH|l d k IH]; intros made logged r Hin; cbn; auto.
  apply IH, in_or_app. now left.
Qed.

Lemma interpolate_settled v : settled (interpolate v).
Proof. unfold settled, interpolate. destruct (ToString v); eauto. Qed.

Lemma URLSearchParams_settled record : settled (URLSearchParams record).
Proof.
  induction record as [|[name value] rest IH]; cbn.
  - left; eauto.
  - destruct (interpolate_settled value) as [[s ->]|[e ->]]; cbn.
    + destruct IH as [[pairs ->]|[e ->]]; cbn; [left|right]; eauto.
    + right; eauto.
Qed.

(** Case analysis on whatever a stuck run is waiting for. *)
Ltac step_run :=
  match goal with
  | |- context [lift ?x] => destruct x eqn:?
  | |- context [interpolate ?v] =>
      destruct (interpolate_settled v) as [[? ->]|[? ->]]
  | |- context [URLSearchParams ?o] =>
      destruct (URLSearchParams_settled o) as [[? ->]|[? ->]]
  | |- context [match ?x with _ => _ end] =>
      lazymatch x with
      | context [match _ with _ => _ end] => fail
      | _ => destruct x eqn:?
      end
  | |- context [if ?x then _ else _] =>
      lazymatch x with
      | context [match _ with _ => _ end] => fail
      | context [if _ then _ else _] => fail
      | _ => destruct x eqn:?
      end
  end.

Ltac crunch_run := cbn; repeat (step_run; cbn).

Lemma own_get_In o key v : own_get o key = Some v -> In (key, v) o.
Proof.
  induction o as [|[k w] rest IH]; cbn; [discriminate|].
  destruct (k =? key) eqn:E.
  - apply String.eqb_eq in E. intros [= ->]. subst. now left.
  - intros H. right. auto.
Qed.

Lemma own_get_forallb (P : string * JsValue -> bool) o key v :
  forallb P o = true -> own_get o key = Some v -> P (key, v) = true.
Proof.
  intros HP Hget. apply own_get_In in Hget.
  rewrite forallb_forall in HP. auto.
Qed.

Lemma own_get_None o key : own_get o key = None <-> ~ In key (Object_keys o).
Proof.
  induction o as [|[k w] rest IH]; cbn.
  - tauto.
  - destruct (k =? key) eqn:E.
    + apply String.eqb_eq in E. split; [discriminate|]. intros H. exfalso. auto.
    + apply String.eqb_neq in E. rewrite IH. tauto.
Qed.


Lemma js_set_fresh o key v :
  own_get o key = None -> js_set o key v = (o ++ [(key, v)])%list.
Proof.
  induction o as [|[k w] rest IH]; cbn; [reflexivity|].
  destruct (k =? key); [discriminate|].
  intros H. now rewrite IH.
Qed.

Lemma missing_is_absent o key :
  own_get o key = None -> inherited_name key = false -> absent o key = true.
Proof.
  unfold absent, js_get, inherited, inherited_name. intros ->.
  now destruct (own_get Object_prototype key).
Qed.

Lemma empty_is_absent o key :
  own_get o key = Some (JStr "") -> absent o key = true.
Proof. unfold absent, js_get. now intros ->. Qed.

Lemma nonempty_string_is_present o key s :
  own_get o key = Some (JStr s) -> s <> "" -> absent o key = false.
Proof.
  unfold absent, js_get. intros -> Hs. cbn.
  destruct (s =? "") eqn:E; [|reflexivity].
  apply String.eqb_eq in E. contradiction.
Qed.

Lemma missing_header_no_bearer : no_bearer None = true.
Proof. reflexivity. Qed.

Lemma non_bearer_header_no_bearer h :
  String.prefix "Bearer " h = false -> no_bearer (Some h) = true.
Proof. cbn. intros ->. apply orb_true_r. Qed.

(** ** Signup *)

Lemma signup_calls cfg req up :
  signup_valid (body req) = true ->
  calls (run (signup cfg req) up) = [ create_user_request cfg (body req) ].
Proof.
  unfold signup_valid, absent. intros valid%negb_true_iff.
  unfold run, signup. rewrite valid.
  unfold create_user_request. crunch_run; reflexivity.
Qed.

Lemma truthy_optional_get_response e key :
  truthy (optional_get (error_response_data e) key) = true ->
  exists r, error_response e = Some r.
Proof.
  unfold error_response_data. destruct (error_response e); [eauto|].
  discriminate.
Qed.

Lemma GetV_optional_get v key :
  truthy (optional_get v key) = true ->
  forall key', GetV v key' = inr (optional_get v key').
Proof.
  unfold optional_get. destruct v; cbn; try discriminate; reflexivity.
Qed.

(** C7 (as amended): a signup request with its four required fields
    present makes the creation call; when that call succeeds with a body
    from which [id] can be read, the answer is 201 with [success: true] and
    [userId] equal to that [id]; when it fails with a response body whose
    [errorCauses] is truthy, the answer is 400 carrying the body's
    [errorSummary] and [errorCauses] (in particular for a summary string
    with a list of causes); every other failure is answered with the generic
    500. *)
Theorem signup_outcomes cfg req up :
  signup_valid (body req) = true ->
  let r := create_user_request cfg (body req) in
  let out := run (signup cfg req) up in
  (forall resp id,
      up [] r = Resolved resp ->
      GetV (resp_data resp) "id" = inr id ->
      response_of out =
        Some (mkResponse 201 [ ("success", JBool true);
                               ("message", JStr "User created successfully");
                               ("userId", id) ]))
  /\ (forall e,
         up [] r = Rejected e ->
         truthy (optional_get (error_response_data e) "errorCauses") = true ->
         response_of out =
           Some (mkResponse 400
                   [ ("success", JBool false);
                     ("message",
                      optional_get (error_response_data e) "errorSummary");
                     ("errors",
                      optional_get (error_response_data e) "errorCauses") ]))
  /\ (forall e code props summary causes,
         up [] r = Rejected e ->
         error_response e = Some (mkAxiosResponse code (JObj props)) ->
         own_get props "errorSummary" = Some (JStr summary) ->
         own_get props "errorCauses" = Some (JArr causes) ->
         response_of out =
           Some (mkResponse 400 [ ("success", JBool false);
                                  ("message", JStr summary);
                                  ("errors", JArr causes) ]))
  /\ (forall e,
         up [] r = Rejected e ->
         truthy (optional_get (error_response_data e) "errorCauses") = false ->
         response_of out = Some (failure 500 "Error creating user account")).
Proof.
  intros valid r out.
  unfold signup_valid, absent in valid. apply negb_true_iff in valid.
  assert (Hfail : forall e,
             up [] r = Rejected e ->
             truthy (optional_get (error_response_data e) "errorCauses") = true ->
             response_of out =
               Some (mkResponse 400
                       [ ("success", JBool false);
                         ("message",
                          optional_get (error_response_data e) "errorSummary");
                         ("errors",
                          optional_get (error_response_data e) "errorCauses") ])).
  { intros e He Hc. subst out r. unfold run, signup. rewrite valid.
    unfold create_user_request in He. cbn. rewrite He. cbn. rewrite Hc.
    destruct (truthy_optional_get_response _ _ Hc) as [ar Har].
    unfold response_data. unfold error_response_data in *. rewrite Har in *.
    cbn. rewrite !(GetV_optional_get _ _ Hc). reflexivity. }
  repeat split.
  - intros resp id Hr Hid. subst out r. unfold run, signup. rewrite valid.
    unfold create_user_request in Hr. cbn. rewrite Hr. cbn. rewrite Hid.
    reflexivity.
  - exact Hfail.
  - intros e code props summary causes He Hresp Hs Hc.
    rewrite (Hfail e He); unfold error_response_data, optional_get;
      rewrite Hresp; cbn; unfold js_get; rewrite ?Hs, ?Hc; reflexivity.
  - intros e He Hc. subst out r. unfold run, signup. rewrite valid.
    unfold create_user_request in He. cbn. rewrite He. cbn. rewrite Hc.
    reflexivity.
Qed.

(** C10: a signup request that passes validation makes exactly one upstream
    call, a POST to [/api/v1/users?activate=true], whose [profile.login] and
    [profile.email] are both the caller's [email], whatever else the body
    holds. *)
Theorem signup_login_is_email cfg req up :
  signup_valid (body req) = true ->
  exists r newUser profile,
    calls (run (signup cfg req) up) = [ r ]
    /\ req_method r = POST
    /\ req_url r = env (OKTA_DOMAIN cfg) ++ "/api/v1/users?activate=true"
    /\ req_data r = JsonData newUser
    /\ GetV newUser "profile" = inr profile
    /\ GetV profile "login" = inr (js_get (body req) "email")
    /\ GetV profile "email" = inr (js_get (body req) "email").
Proof.
  intros valid. rewrite (signup_calls cfg req up valid).
  do 3 eexists. repeat split.
Qed.

(** ** Login *)

Lemma login_rejected_401 cfg req up :
  absent (body req) "username" || absent (body req) "password" = false ->
  upstream_failed (login cfg req) up ->
  response_of (run (login cfg req) up) = Some authentication_failed.
Proof.
  unfold absent, upstream_failed, run, login. intros ->.
  cbn [negb orb].
  match goal with
  | |- context [URLSearchParams ?o] =>
      destruct (URLSearchParams_settled o) as [[pairs ->]|[e ->]]
  end; cbn; [|reflexivity].
  intros H.
  match type of H with
  | context [up [] ?r] => destruct (H r) as [e He]
  end.
  { apply exec_calls_incl. now left. }
  now rewrite He.
Qed.

(** The only call a login makes is the token exchange. *)
Lemma login_calls cfg req up r :
  In r (calls (run (login cfg req) up)) ->
  req_method r = POST
  /\ req_url r = env (OKTA_DOMAIN cfg) ++ "/oauth2/v1/token".
Proof.
  unfold run, login.
  destruct (negb (truthy (js_get (body req) "username"))
            || negb (truthy (js_get (body req) "password")));
    [intros []|].
  match goal with
  | |- context [URLSearchParams ?o] =>
      destruct (URLSearchParams_settled o) as [[pairs ->]|[e ->]]
  end; [|intros []].
  crunch_run; (intros [<-|[]]; split; reflexivity).
Qed.

(** C1: a login request with truthy [username] and [password] whose
    token-exchange call fails is answered with 401 and exactly
    [{success: false, message: 'Authentication failed'}]; two upstreams
    that fail in different ways yield the same response, so nothing of the
    upstream error reaches the caller. *)
Theorem login_failure_is_uniform cfg req up1 up2 :
  absent (body req) "username" || absent (body req) "password" = false ->
  upstream_failed (login cfg req) up1 ->
  upstream_failed (login cfg req) up2 ->
  response_of (run (login cfg req) up1)
  = Some (mkResponse 401 [ ("success", JBool false);
                           ("message", JStr "Authentication failed") ])
  /\ response_of (run (login cfg req) up2)
     = response_of (run (login cfg req) up1)
  /\ forall r,
      In r (calls (run (login cfg req) up1)) ->
      req_method r = POST
      /\ req_url r = env (OKTA_DOMAIN cfg) ++ "/oauth2/v1/token".
Proof.
  intros Hvalid H1 H2.
  rewrite (login_rejected_401 cfg req up1 Hvalid H1).
  rewrite (login_rejected_401 cfg req up2 Hvalid H2).
  split; [reflexivity|]. split; [reflexivity|].
  apply login_calls.
Qed.

(** ** Password reset *)

(** C6 (as amended): a reset request without a truthy [email] is answered
    400 with no upstream call; with one, the reset call is made for that
    address, its success is answered 200 [{success: true}] and each of its
    failures, whatever the error, with the same 400 [{success: false}] and
    the same fixed message (which is also the answer, without any call,
    when the [email] value cannot be interpolated into the URL).  The
    answer thus hides why the provider refused, not whether it did. *)
Theorem reset_password_outcomes cfg req up :
  let email := js_get (body req) "email" in
  let out := run (reset_password cfg req) up in
  (absent (body req) "email" = true ->
   response_of out = Some (failure 400 "Email is required")
   /\ calls out = [])
  /\ (forall user,
         absent (body req) "email" = false ->
         ToString email = Some user ->
         calls out = [ reset_request cfg user ]
         /\ (forall resp,
                up [] (reset_request cfg user) = Resolved resp ->
                response_of out = Some (success 200 "Password reset email sent"))
         /\ (forall e,
                up [] (reset_request cfg user) = Rejected e ->
                response_of out
                = Some (failure 400 "Failed to send password reset email")))
  /\ (absent (body req) "email" = false ->
      ToString email = None ->
      calls out = []
      /\ response_of out
         = Some (failure 400 "Failed to send password reset email")).
Proof.
  intros email out. subst email out.
  unfold absent, run, reset_password, reset_request, interpolate.
  split; [|split].
  - intros ->. split; reflexivity.
  - intros user Hp%negb_false_iff Hs. rewrite Hp, Hs. cbn.
    repeat split.
    + destruct (up [] _); reflexivity.
    + intros resp ->. reflexivity.
    + intros e ->. reflexivity.
  - intros Hp%negb_false_iff Hs. rewrite Hp, Hs. split; reflexivity.
Qed.

(** ** The field mapping of Update Profile *)

Lemma allowedFields_identity key v :
  own_get allowedFields key = Some v -> v = JStr key.
Proof.
  intros H.
  apply (own_get_forallb
           (fun e => match snd e with
                     | JStr s => s =? fst e
                     | _ => false
                     end)) in H; [|reflexivity].
  cbn in H. destruct v; try discriminate.
  apply String.eqb_eq in H. now subst.
Qed.

Lemma js_get_allowed key :
  in_allow_list key = true -> js_get allowedFields key = JStr key.
Proof.
  unfold in_allow_list, js_get.
  destruct (own_get allowedFields key) eqn:E; [|discriminate].
  intros _. now apply allowedFields_identity.
Qed.

Lemma js_get_not_allowed key :
  in_allow_list key = false -> inherited_name key = false ->
  js_get allowedFields key = JUndefined.
Proof.
  unfold in_allow_list, inherited_name, js_get, inherited.
  destruct (own_get allowedFields key); [discriminate|].
  destruct (own_get Object_prototype key); [discriminate|reflexivity].
Qed.

Lemma allowed_name_truthy key :
  in_allow_list key = true -> truthy (JStr key) = true.
Proof.
  intros H. cbn. destruct (key =? "") eqn:E; [|reflexivity].
  apply String.eqb_eq in E. subst. discriminate.
Qed.

Lemma ToString_allowedFields key :
  exists s, ToString (js_get allowedFields key) = Some s.
Proof.
  unfold js_get, inherited.
  destruct (own_get allowedFields key) eqn:E.
  - apply allowedFields_identity in E. subst. cbn. eauto.
  - destruct (own_get Object_prototype key) eqn:P; [|cbn; eauto].
    apply (own_get_forallb
             (fun e => match ToString (snd e) with
                       | Some _ => true
                       | None => false
                       end)) in P; [|reflexivity].
    cbn in P. destruct (ToString j); [eauto|discriminate].
Qed.

Lemma copy_field_total entry profile :
  exists profile', copy_field entry profile = Ret profile'.
Proof.
  destruct entry as [key value]. unfold copy_field, interpolate.
  destruct (truthy _ && not_undefined value); [|cbn; eauto].
  destruct (ToString_allowedFields key) as [s ->]. cbn. eauto.
Qed.

Lemma copy_field_plain key value profile :
  inherited_name key = false ->
  copy_field (key, value) profile
  = Ret (if copied (key, value) then js_set profile key value else profile).
Proof.
  intros Hplain. unfold copy_field, copied, interpolate. cbn [fst snd].
  destruct (in_allow_list key) eqn:E.
  - rewrite (js_get_allowed key E), (allowed_name_truthy key E). cbn.
    now destruct (not_undefined value).
  - now rewrite (js_get_not_allowed key E Hplain).
Qed.

Lemma for_of_copy_field_total entries :
  forall acc, exists profile, for_of entries copy_field acc = Ret profile.
Proof.
  induction entries as [|e rest IH]; intros acc; cbn; [eauto|].
  destruct (copy_field_total e acc) as [acc' ->]. cbn. apply IH.
Qed.

(** The loop always runs to completion. *)
Lemma fill_profile_total o : exists profile, fill_profile o = Ret profile.
Proof. apply for_of_copy_field_total. Qed.

Lemma own_get_app a b key :
  own_get (a ++ b)%list key
  = match own_get a key with
    | Some v => Some v
    | None => own_get b key
    end.
Proof.
  induction a as [|[k v] rest IH]; cbn; [reflexivity|].
  now destruct (k =? key).
Qed.

Lemma for_of_copy_field_plain entries :
  forall acc,
    NoDup (Object_keys entries) ->
    plain_keys entries ->
    (forall key, In key (Object_keys entries) -> own_get acc key = None) ->
    for_of entries copy_field acc = Ret (acc ++ filter copied entries)%list.
Proof.
  induction entries as [|[key value] rest IH]; intros acc Hnd Hplain Hfresh.
  - cbn. now rewrite app_nil_r.
  - cbn [for_of]. inversion Hnd as [|? ? Hnotin Hnd']; subst.
    inversion Hplain as [|? ? Hkey Hplain']; subst.
    rewrite (copy_field_plain key value acc Hkey).
    cbn [bind Monad_Prog Prog_bind filter].
    destruct (copied (key, value)).
    + rewrite js_set_fresh by (apply Hfresh; now left).
      rewrite IH; auto.
      * now rewrite <- app_assoc.
      * intros k Hk. rewrite own_get_app, Hfresh by now right.
        cbn. destruct (key =? k) eqn:E; [|reflexivity].
        apply String.eqb_eq in E. subst. contradiction.
    + apply IH; auto. intros k Hk. apply Hfresh. now right.
Qed.

(** On a body with distinct keys, none of them inherited, the loop keeps
    exactly the entries whose key is in the allow-list and whose value is
    not [undefined], in order and under the same name. *)
Lemma fill_profile_plain o :
  NoDup (Object_keys o) -> plain_keys o ->
  fill_profile o = Ret (filter copied o).
Proof.
  intros Hnd Hplain. unfold fill_profile, Object_entries.
  now rewrite for_of_copy_field_plain.
Qed.

Lemma copied_entry o name value :
  In (name, value) (filter copied o)
  <-> exists key,
        In (key, value) o
        /\ own_get allowedFields key = Some (JStr name)
        /\ value <> JUndefined.
Proof.
  rewrite filter_In. unfold copied, in_allow_list. cbn [fst snd]. split.
  - intros [Hin Hc]. exists name.
    destruct (own_get allowedFields name) eqn:E; [|discriminate].
    apply allowedFields_identity in E. subst.
    repeat split; auto. intros ->. discriminate.
  - intros (key & Hin & Hmap & Hv).
    pose proof (allowedFields_identity _ _ Hmap) as [= ->].
    rewrite Hmap. split; auto. now destruct value.
Qed.

(** ** Update Profile *)

Lemma update_profile_unauthorised cfg req up e :
  no_bearer (headers_authorization req) = false ->
  up [] (userinfo_request cfg (headers_authorization req)) = Rejected e ->
  run (update_profile cfg req) up
  = mkRun (inr (failure 401 "Invalid token"))
      [ userinfo_request cfg (headers_authorization req) ] [].
Proof.
  intros Hb He. unfold run, update_profile. rewrite Hb.
  unfold userinfo_request in He. cbn in He |- *. rewrite He. reflexivity.
Qed.

(** The calls of a run of Update Profile: the userinfo call alone, or the
    userinfo call followed by one patch call that carries the filled
    profile, with [login] added when the body has a truthy one. *)
Lemma update_profile_calls cfg req up :
  no_bearer (headers_authorization req) = false ->
  calls (run (update_profile cfg req) up)
  = [ userinfo_request cfg (headers_authorization req) ]
  \/ exists id profile,
      fill_profile (body req) = Ret profile
      /\ profile <> []
      /\ subject cfg req up id
      /\ calls (run (update_profile cfg req) up)
         = [ userinfo_request cfg (headers_authorization req);
             profile_patch_request cfg id (with_login (body req) profile) ].
Proof.
  intros Hb. unfold subject, userinfo_sub. rewrite Hb.
  destruct (fill_profile_total (body req)) as [profile Hfill].
  unfold run, update_profile. rewrite Hb, Hfill.
  unfold userinfo_request, profile_patch_request, with_login. cbn.
  destruct (up [] _) as [resp|e] eqn:Hup; cbn; [|now left].
  destruct (GetV (resp_data resp) "sub") as [e|sub] eqn:Hsub; cbn.
  { left. crunch_run; reflexivity. }
  destruct profile as [|entry profile]; cbn; [now left|].
  unfold interpolate. destruct (ToString sub) as [id|] eqn:Hid; cbn.
  - right. exists id, (entry :: profile).
    split; [reflexivity|]. split; [discriminate|]. split.
    + exists sub. eauto.
    + crunch_run; reflexivity.
  - left. reflexivity.
Qed.

Lemma update_profile_no_bearer_calls cfg req up :
  no_bearer (headers_authorization req) = true ->
  calls (run (update_profile cfg req) up) = [].
Proof. intros Hb. unfold run, update_profile. now rewrite Hb. Qed.

(** C2: an Update Profile request with a Bearer header makes the userinfo
    call first and at most one further call, the profile patch; when the
    userinfo call fails the patch call is not made and the answer is 401. *)
Theorem update_profile_sequencing cfg req up :
  no_bearer (headers_authorization req) = false ->
  let userinfo := userinfo_request cfg (headers_authorization req) in
  let out := run (update_profile cfg req) up in
  (calls out = [ userinfo ]
   \/ exists id profile,
       calls out = [ userinfo; profile_patch_request cfg id profile ])
  /\ (forall e,
         up [] userinfo = Rejected e ->
         calls out = [ userinfo ]
         /\ response_of out = Some (failure 401 "Invalid token")).
Proof.
  intros Hb userinfo out. split.
  - destruct (update_profile_calls cfg req up Hb)
      as [H|(id & profile & _ & _ & _ & H)]; [now left|].
    right. eauto.
  - intros e He. subst out userinfo.
    now rewrite (update_profile_unauthorised cfg req up e Hb He).
Qed.

Lemma update_profile_empty cfg req up sub :
  userinfo_sub cfg req up sub ->
  fill_profile (body req) = Ret [] ->
  run (update_profile cfg req) up
  = mkRun (inr (failure 400 "No valid fields to update"))
      [ userinfo_request cfg (headers_authorization req) ] [].
Proof.
  intros (Hb & resp & Hup & Hsub) Hfill.
  unfold run, update_profile. rewrite Hb, Hfill.
  unfold userinfo_request in Hup. cbn in Hup |- *. rewrite Hup. cbn. rewrite Hsub.
  reflexivity.
Qed.

Lemma update_profile_patch_calls cfg req up id profile :
  subject cfg req up id ->
  fill_profile (body req) = Ret profile ->
  profile <> [] ->
  calls (run (update_profile cfg req) up)
  = [ userinfo_request cfg (headers_authorization req);
      profile_patch_request cfg id (with_login (body req) profile) ].
Proof.
  intros (sub & (Hb & resp & Hup & Hsub) & Hid) Hfill Hne.
  unfold run, update_profile. rewrite Hb, Hfill.
  unfold userinfo_request in Hup. cbn in Hup |- *. rewrite Hup. cbn. rewrite Hsub. cbn.
  destruct profile as [|entry profile]; [contradiction|].
  unfold interpolate. rewrite Hid. cbn.
  unfold profile_patch_request, with_login.
  crunch_run; reflexivity.
Qed.

(** No patch call is made while the filled profile is empty. *)
Lemma update_profile_empty_no_patch cfg req up :
  fill_profile (body req) = Ret [] ->
  forall r, In r (calls (run (update_profile cfg req) up)) ->
            req_method r = GET.
Proof.
  intros Hfill r.
  destruct (no_bearer (headers_authorization req)) eqn:Hb.
  - now rewrite update_profile_no_bearer_calls.
  - destruct (update_profile_calls cfg req up Hb)
      as [->|(id & profile & Hfill' & Hne & _)].
    + intros [<-|[]]. reflexivity.
    + rewrite Hfill in Hfill'. injection Hfill' as <-. contradiction.
Qed.

(** C3 (as amended): for a body whose keys are distinct and none of them a
    name inherited from [Object.prototype], the loop builds the patch object
    from exactly the entries whose key is in the allow-list and whose value
    is not [undefined], each under its mapped name; whenever that object is
    empty no patch call is made, and the request is answered 400 if its
    userinfo call succeeds with a body whose [sub] can be read; and when
    exactly one entry of such a body is recognised and the body has no
    truthy [login], a request whose userinfo call succeeds with a body
    whose [sub] can be read and converted to a string makes exactly one
    patch call, whose profile holds that one field only.  (A userinfo call
    that succeeds with a [null] body leads to 500 and no patch call.) *)
Theorem profile_patch_construction cfg req up :
  let out := run (update_profile cfg req) up in
  (NoDup (Object_keys (body req)) ->
   plain_keys (body req) ->
   exists patch,
     fill_profile (body req) = Ret patch
     /\ forall name value,
         In (name, value) patch
         <-> exists key,
               In (key, value) (body req)
               /\ own_get allowedFields key = Some (JStr name)
               /\ value <> JUndefined)
  /\ (fill_profile (body req) = Ret [] ->
      (forall r, In r (calls out) -> req_method r = GET)
      /\ forall sub,
          userinfo_sub cfg req up sub ->
          response_of out = Some (failure 400 "No valid fields to update"))
  /\ (forall key value id,
         NoDup (Object_keys (body req)) ->
         plain_keys (body req) ->
         filter copied (body req) = [ (key, value) ] ->
         truthy (js_get (body req) "login") = false ->
         subject cfg req up id ->
         calls out
         = [ userinfo_request cfg (headers_authorization req);
             profile_patch_request cfg id [ (key, value) ] ]).
Proof.
  intros out. split; [|split].
  - intros Hnd Hplain. exists (filter copied (body req)).
    split; [now apply fill_profile_plain|].
    intros name value. apply copied_entry.
  - intros Hempty. split.
    + now apply update_profile_empty_no_patch.
    + intros sub Hsub. subst out.
      now rewrite (update_profile_empty cfg req up sub Hsub Hempty).
  - intros key value id Hnd Hplain Hone Hlogin Hid. subst out.
    pose proof (fill_profile_plain (body req) Hnd Hplain) as Hfill.
    rewrite Hone in Hfill.
    rewrite (update_profile_patch_calls cfg req up id _ Hid Hfill)
      by discriminate.
    unfold with_login. now rewrite Hlogin.
Qed.


Lemma for_of_copy_field_without_unknown entries :
  forall acc,
    for_of (without_unknown entries) copy_field acc
    = for_of entries copy_field acc.
Proof.
  induction entries as [|[key value] rest IH]; intros acc; [reflexivity|].
  cbn [without_unknown filter fst for_of].
  destruct (unknown key) eqn:Hu; cbn [negb for_of].
  - unfold unknown in Hu.
    apply andb_true_iff in Hu as [Hu Hi%negb_true_iff].
    apply andb_true_iff in Hu as [Ha%negb_true_iff _].
    rewrite (copy_field_plain key value acc Hi). unfold copied.
    cbn [fst]. rewrite Ha. cbn. apply IH.
  - destruct (copy_field_total (key, value) acc) as [acc' ->]. cbn.
    apply IH.
Qed.

Lemma own_get_without_unknown o key :
  unknown key = false -> own_get (without_unknown o) key = own_get o key.
Proof.
  intros Hk. induction o as [|[k v] rest IH]; [reflexivity|].
  cbn [without_unknown filter fst own_get].
  destruct (k =? key) eqn:E.
  - apply String.eqb_eq in E. subst k. rewrite Hk. cbn.
    now rewrite String.eqb_refl.
  - destruct (unknown k); cbn; [|rewrite E]; exact IH.
Qed.

Lemma allowedFields_NoDup : NoDup (Object_keys allowedFields).
Proof.
  unfold Object_keys. cbn.
  repeat (constructor; [cbn; intuition discriminate|]). constructor.
Qed.

(** C8 (as amended): the allow-list has exactly 30 keys, all distinct, and
    a body entry whose key is neither one of them, nor [login], nor a name
    inherited from [Object.prototype] is dropped silently: removing such
    entries from the body changes neither the upstream calls nor the
    response. *)
Theorem unknown_fields_are_dropped :
  length (Object_keys allowedFields) = 30%nat
  /\ NoDup (Object_keys allowedFields)
  /\ (forall o, fill_profile (without_unknown o) = fill_profile o)
  /\ (forall cfg authHeader o up,
         run (update_profile cfg (mkRequest authHeader (without_unknown o))) up
         = run (update_profile cfg (mkRequest authHeader o)) up).
Proof.
  split; [reflexivity|]. split; [exact allowedFields_NoDup|].
  assert (Hfill : forall o, fill_profile (without_unknown o) = fill_profile o).
  { intros o. apply for_of_copy_field_without_unknown. }
  split; [exact Hfill|].
  intros cfg authHeader o up. unfold update_profile.
  cbn [body headers_authorization].
  rewrite Hfill. unfold js_get.
  now rewrite (own_get_without_unknown o "login").
Qed.

Lemma filter_keys_NoDup (f : string * JsValue -> bool) o :
  NoDup (Object_keys o) -> NoDup (Object_keys (filter f o)).
Proof.
  unfold Object_keys. induction o as [|[k v] rest IH]; cbn; [auto|].
  intros Hnd. inversion Hnd as [|? ? Hnotin Hnd']; subst.
  destruct (f (k, v)); cbn; [|auto].
  constructor; [|auto]. intros Hin. apply Hnotin.
  apply in_map_iff in Hin as ([k' v'] & <- & Hin).
  apply filter_In in Hin as [Hin _].
  apply in_map_iff. now exists (k', v').
Qed.

Lemma filter_plain_keys (f : string * JsValue -> bool) o :
  plain_keys o -> plain_keys (filter f o).
Proof.
  unfold plain_keys, Object_keys. induction o as [|[k v] rest IH]; cbn; [auto|].
  intros H. inversion H; subst. destruct (f (k, v)); cbn; auto.
Qed.

Lemma filter_twice {X : Type} (f : X -> bool) l :
  filter f (filter f l) = filter f l.
Proof.
  induction l as [|x rest IH]; cbn; [reflexivity|].
  destruct (f x) eqn:E; cbn; rewrite ?E, IH; reflexivity.
Qed.

(** Away from the names inherited from [Object.prototype], filling a
    profile from a filled profile changes nothing. *)
Lemma fill_profile_idempotent_plain o :
  NoDup (Object_keys o) -> plain_keys o ->
  exists patch, fill_profile o = Ret patch /\ fill_profile patch = Ret patch.
Proof.
  intros Hnd Hplain. exists (filter copied o). split.
  - now apply fill_profile_plain.
  - rewrite fill_profile_plain.
    + now rewrite filter_twice.
    + now apply filter_keys_NoDup.
    + now apply filter_plain_keys.
Qed.

(** C9: the field mapping evaluated twice from the body
    [{constructor: 'x'}].  [allowedFields['constructor']] is the inherited
    [Object] function, so the first pass stores the value under that
    function's source text; the second pass finds no such key in
    [allowedFields] and returns the empty object: the mapping is not
    idempotent on this body. *)
Theorem fill_profile_twice_constructor :
  fill_profile [ ("constructor", JStr "x") ]
  = Ret [ ("function Object() { [native code] }", JStr "x") ]
  /\ fill_profile [ ("function Object() { [native code] }", JStr "x") ]
     = Ret [].
Proof. split; reflexivity. Qed.

(** ** Missing input *)

(** C5 (as amended): for a request whose body is an object, each of the six
    handlers answers a missing or falsy required body field, and the two
    profile handlers a missing or non-Bearer Authorization header, with 400
    or 401 and without any upstream call.  The other required input of
    Update Profile, a recognised field, is checked after the token: when
    the patch object is empty the request is answered 401 if its userinfo
    call fails, and 400 if that call succeeds with a body whose [sub] can
    be read -- in both cases after exactly one upstream call, the userinfo
    call. *)
Theorem missing_input_is_rejected cfg req up :
  (absent (body req) "firstName" || absent (body req) "lastName"
   || absent (body req) "email" || absent (body req) "password" = true ->
   response_of (run (signup cfg req) up)
   = Some (failure 400 "Missing required fields")
   /\ calls (run (signup cfg req) up) = [])
  /\ (absent (body req) "username" || absent (body req) "password" = true ->
      response_of (run (login cfg req) up)
      = Some (failure 400 "Username and password are required")
      /\ calls (run (login cfg req) up) = [])
  /\ (no_bearer (headers_authorization req) = true ->
      response_of (run (get_profile cfg req) up)
      = Some (failure 401 "No token provided")
      /\ calls (run (get_profile cfg req) up) = [])
  /\ (no_bearer (headers_authorization req) = true ->
      response_of (run (update_profile cfg req) up)
      = Some (failure 401 "No token provided")
      /\ calls (run (update_profile cfg req) up) = [])
  /\ (absent (body req) "email" = true ->
      response_of (run (reset_password cfg req) up)
      = Some (failure 400 "Email is required")
      /\ calls (run (reset_password cfg req) up) = [])
  /\ (absent (body req) "token" = true ->
      response_of (run (logout cfg req) up)
      = Some (failure 400 "Token is required")
      /\ calls (run (logout cfg req) up) = [])
  /\ (no_bearer (headers_authorization req) = false ->
      fill_profile (body req) = Ret [] ->
      (forall e,
          up [] (userinfo_request cfg (headers_authorization req))
          = Rejected e ->
          response_of (run (update_profile cfg req) up)
          = Some (failure 401 "Invalid token")
          /\ calls (run (update_profile cfg req) up)
             = [ userinfo_request cfg (headers_authorization req) ])
      /\ (forall sub,
             userinfo_sub cfg req up sub ->
             response_of (run (update_profile cfg req) up)
             = Some (failure 400 "No valid fields to update")
             /\ calls (run (update_profile cfg req) up)
                = [ userinfo_request cfg (headers_authorization req) ])).
Proof.
  repeat match goal with |- _ /\ _ => split end.
  1-6: unfold absent, run, signup, login, get_profile, update_profile,
         reset_password, logout;
       intros Hmissing; rewrite Hmissing; split; reflexivity.
  intros Hb Hfill. split.
  - intros e He.
    now rewrite (update_profile_unauthorised cfg req up e Hb He).
  - intros sub Hsub.
    now rewrite (update_profile_empty cfg req up sub Hsub Hfill).
Qed.

(** ** Concrete runs *)

(** C1, at a concrete request refused once for its credentials and once
    because the provider is unreachable. *)
Lemma login_failure_is_uniform_witness :
  response_of (run (login cfg0 login_request)
                 (upstream_rejects 400 invalid_credentials))
  = Some (mkResponse 401 [ ("success", JBool false);
                           ("message", JStr "Authentication failed") ])
  /\ response_of (run (login cfg0 login_request) upstream_down)
     = response_of (run (login cfg0 login_request)
                      (upstream_rejects 400 invalid_credentials)).
Proof.
  assert (H : upstream_failed (login cfg0 login_request)
                (upstream_rejects 400 invalid_credentials)
              /\ upstream_failed (login cfg0 login_request) upstream_down).
  { split; intros r _; eexists; reflexivity. }
  destruct (login_failure_is_uniform cfg0 login_request
              (upstream_rejects 400 invalid_credentials) upstream_down
              eq_refl (proj1 H) (proj2 H)) as (Hresp & Hsame & _).
  exact (conj Hresp Hsame).
Defined.

(** C2, at a request whose token the provider refuses. *)
Lemma update_profile_sequencing_witness :
  calls (run (update_profile cfg0 (bearer [ ("firstName", JStr "Ada") ]))
           upstream_down)
  = [ userinfo_request cfg0 (Some "Bearer eyJraWQ") ]
  /\ response_of
       (run (update_profile cfg0 (bearer [ ("firstName", JStr "Ada") ]))
          upstream_down)
     = Some (failure 401 "Invalid token").
Proof.
  refine (proj2 (update_profile_sequencing cfg0
                   (bearer [ ("firstName", JStr "Ada") ]) upstream_down _)
            _ _).
  - reflexivity.
  - reflexivity.
Defined.

(** C3, at a body with one recognised and one unrecognised field. *)
Lemma profile_patch_construction_witness :
  calls (run (update_profile cfg0
                (bearer [ ("firstName", JStr "Ada"); ("shoeSize", JNum 38) ]))
           upstream_ok)
  = [ userinfo_request cfg0 (Some "Bearer eyJraWQ");
      profile_patch_request cfg0 "00u1" [ ("firstName", JStr "Ada") ] ].
Proof.
  refine (proj2 (proj2 (profile_patch_construction cfg0
                          (bearer [ ("firstName", JStr "Ada");
                                    ("shoeSize", JNum 38) ])
                          upstream_ok))
            "firstName" (JStr "Ada") "00u1" _ _ _ _ _).
  - repeat constructor; cbn; intuition discriminate.
  - repeat constructor.
  - reflexivity.
  - reflexivity.
  - exists (JStr "00u1"). split; [|reflexivity].
    split; [reflexivity|]. eexists. split; reflexivity.
Defined.

(** C3 as stated fails: of the two fields of this body only [firstName]
    is in the allow-list, yet the profile of the patch call holds a second
    field, [login]. *)
Lemma patch_of_one_field_carries_login :
  filter copied [ ("firstName", JStr "Ada"); ("login", JStr "ada2") ]
  = [ ("firstName", JStr "Ada") ]
  /\ in_allow_list "login" = false
  /\ calls (run (update_profile cfg0
                   (bearer [ ("firstName", JStr "Ada");
                             ("login", JStr "ada2") ]))
              upstream_ok)
     = [ userinfo_request cfg0 (Some "Bearer eyJraWQ");
         profile_patch_request cfg0 "00u1"
           [ ("firstName", JStr "Ada"); ("login", JStr "ada2") ] ].
Proof. repeat split. Qed.

(** The defect behind C9 at the level of the handler: a body whose only
    field is named [constructor] is not answered 400 but patched upstream
    under a key that is no profile field. *)
Lemma constructor_only_body_is_patched :
  in_allow_list "constructor" = false
  /\ calls (run (update_profile cfg0 (bearer [ ("constructor", JStr "x") ]))
              upstream_ok)
     = [ userinfo_request cfg0 (Some "Bearer eyJraWQ");
         profile_patch_request cfg0 "00u1"
           [ ("function Object() { [native code] }", JStr "x") ] ].
Proof. split; reflexivity. Qed.



(** C5, at a request with an empty body and no Authorization header. *)
Lemma missing_input_is_rejected_witness :
  calls (run (signup cfg0 empty_request) upstream_ok) = []
  /\ calls (run (login cfg0 empty_request) upstream_ok) = []
  /\ calls (run (get_profile cfg0 empty_request) upstream_ok) = []
  /\ calls (run (update_profile cfg0 empty_request) upstream_ok) = []
  /\ calls (run (reset_password cfg0 empty_request) upstream_ok) = []
  /\ calls (run (logout cfg0 empty_request) upstream_ok) = [].
Proof.
  destruct (missing_input_is_rejected cfg0 empty_request upstream_ok)
    as (Hsignup & Hlogin & Hget & Hput & Hreset & Hlogout & _).
  exact (conj (proj2 (Hsignup eq_refl))
          (conj (proj2 (Hlogin eq_refl))
             (conj (proj2 (Hget eq_refl))
                (conj (proj2 (Hput eq_refl))
                   (conj (proj2 (Hreset eq_refl))
                      (proj2 (Hlogout eq_refl))))))).
Defined.

(** C5 as stated fails: this Update Profile request lacks its required
    recognised field and is answered 400, but not locally: the userinfo
    call has been made first. *)
Lemma missing_field_costs_a_userinfo_call :
  filter copied [ ("shoeSize", JNum 38) ] = []
  /\ response_of
       (run (update_profile cfg0 (bearer [ ("shoeSize", JNum 38) ]))
          upstream_ok)
     = Some (failure 400 "No valid fields to update")
  /\ calls (run (update_profile cfg0 (bearer [ ("shoeSize", JNum 38) ]))
              upstream_ok)
     = [ userinfo_request cfg0 (Some "Bearer eyJraWQ") ]
  /\ calls (run (update_profile cfg0 (bearer [ ("shoeSize", JNum 38) ]))
              upstream_ok)
     <> [].
Proof. repeat split. discriminate. Qed.

(** C6, at a request for an address the provider does not know. *)
Lemma reset_password_outcomes_witness :
  response_of
    (run (reset_password cfg0
            (mkRequest None [ ("email", JStr "nobody@example.com") ]))
       (upstream_rejects 404
          (JObj [ ("errorCode", JStr "E0000007");
                  ("errorSummary",
                   JStr "Not found: Resource not found: nobody@example.com (User)") ])))
  = Some (failure 400 "Failed to send password reset email").
Proof.
  refine (proj2 (proj2 (proj1 (proj2
            (reset_password_outcomes cfg0
               (mkRequest None [ ("email", JStr "nobody@example.com") ])
               (upstream_rejects 404 _)))
            "nobody@example.com" _ _)) _ _).
  - reflexivity.
  - reflexivity.
  - reflexivity.
Defined.

(** C6 as stated fails: the response does reveal whether the account
    exists.  The same request is answered 200 when the provider knows the
    address and 400 when the provider answers 404 for it. *)
Lemma reset_password_reveals_existence :
  response_of
    (run (reset_password cfg0
            (mkRequest None [ ("email", JStr "ada@example.com") ]))
       upstream_ok)
  = Some (success 200 "Password reset email sent")
  /\ response_of
       (run (reset_password cfg0
               (mkRequest None [ ("email", JStr "ada@example.com") ]))
          (upstream_rejects 404
             (JObj [ ("errorCode", JStr "E0000007");
                     ("errorSummary",
                      JStr "Not found: Resource not found: ada@example.com (User)") ])))
     = Some (failure 400 "Failed to send password reset email")
  /\ success 200 "Password reset email sent"
     <> failure 400 "Failed to send password reset email".
Proof. repeat split. discriminate. Qed.

(** C7, at a request the provider refuses with a validation error. *)
Lemma signup_outcomes_witness :
  response_of
    (run (signup cfg0 signup_request)
       (upstream_rejects 400
          (JObj [ ("errorSummary", JStr "Api validation failed: password");
                  ("errorCauses",
                   JArr [ JObj [ ("errorSummary",
                                  JStr "password: too short") ] ]) ])))
  = Some (mkResponse 400
            [ ("success", JBool false);
              ("message", JStr "Api validation failed: password");
              ("errors",
               JArr [ JObj [ ("errorSummary",
                              JStr "password: too short") ] ]) ]).
Proof.
  refine (proj1 (proj2 (proj2
            (signup_outcomes cfg0 signup_request (upstream_rejects 400 _) _)))
            _ 400%Z _ _ _ _ _ _ _).
  - reflexivity.
  - reflexivity.
  - reflexivity.
  - reflexivity.
  - reflexivity.
Defined.

(** C7 as stated fails: this failure carries causes that are not a list
    and no summary, and is answered 400, not with the generic 500. *)
Lemma signup_causes_without_summary :
  own_get [ ("errorCauses", JStr "gateway timeout") ] "errorSummary" = None
  /\ response_of
       (run (signup cfg0 signup_request)
          (upstream_rejects 502
             (JObj [ ("errorCauses", JStr "gateway timeout") ])))
     = Some (mkResponse 400 [ ("success", JBool false);
                              ("message", JUndefined);
                              ("errors", JStr "gateway timeout") ]).
Proof. split; reflexivity. Qed.

(** C8 as stated fails: the allow-list does not have 29 keys. *)
Lemma allowedFields_has_not_29_keys :
  length (Object_keys allowedFields) <> 29%nat.
Proof. discriminate. Qed.

(** C10, at a request that also carries a [login] of its own. *)
Lemma signup_login_is_email_witness :
  exists r newUser profile,
    calls (run (signup cfg0 signup_request) upstream_ok) = [ r ]
    /\ req_method r = POST
    /\ req_url r = "https://dev-1.okta.com/api/v1/users?activate=true"
    /\ req_data r = JsonData newUser
    /\ GetV newUser "profile" = inr profile
    /\ GetV profile "login" = inr (JStr "ada@example.com")
    /\ GetV profile "email" = inr (JStr "ada@example.com").
Proof.
  apply (signup_login_is_email cfg0 signup_request upstream_ok).
  reflexivity.
Defined.

(** * Further properties of the handlers *)

(** ** The shared [catch] clause *)

Lemma env_value_ToString o : ToString (env_value o) = Some (env o).
Proof. now destruct o. Qed.

Lemma exec_validation_branch message e up made logged :
  exec
    (if truthy (optional_get (error_response_data e) "errorCauses")
     then
       Prog_bind (lift (response_data e))
         (fun data =>
            Prog_bind (lift (GetV data "errorSummary"))
              (fun errorSummary =>
                 Prog_bind (lift (GetV data "errorCauses"))
                   (fun errorCauses =>
                      Ret (mkResponse 400 [ ("success", JBool false);
                                            ("message", errorSummary);
                                            ("errors", errorCauses) ]))))
     else Ret (failure 500 message))
    up made logged
  = mkRun (inr (validation_response message e)) made logged.
Proof.
  unfold validation_response.
  destruct (truthy (optional_get (error_response_data e) "errorCauses"))
    eqn:Hc; [|reflexivity].
  destruct (truthy_optional_get_response _ _ Hc) as [ar Har].
  unfold response_data. unfold error_response_data in *. rewrite Har in *.
  cbn. rewrite !(GetV_optional_get _ _ Hc). reflexivity.
Qed.

(** ** Signup, run by run *)

Lemma signup_run_invalid cfg req up :
  signup_valid (body req) = false ->
  run (signup cfg req) up
  = mkRun (inr (failure 400 "Missing required fields")) [] [].
Proof.
  unfold signup_valid, absent. intros H%negb_false_iff.
  unfold run, signup. now rewrite H.
Qed.

Lemma signup_run_rejected cfg req up e :
  signup_valid (body req) = true ->
  up [] (create_user_request cfg (body req)) = Rejected e ->
  run (signup cfg req) up
  = mkRun (inr (validation_response "Error creating user account" e))
      [ create_user_request cfg (body req) ]
      [ ("Signup error:", error_detail e) ].
Proof.
  unfold signup_valid, absent. intros H%negb_true_iff He.
  unfold run, signup. rewrite H. unfold create_user_request in *.
  cbn. rewrite He. cbn.
  apply (exec_validation_branch "Error creating user account").
Qed.

Lemma signup_run_resolved cfg req up resp :
  signup_valid (body req) = true ->
  up [] (create_user_request cfg (body req)) = Resolved resp ->
  run (signup cfg req) up
  = match GetV (resp_data resp) "id" with
    | inr id =>
        mkRun (inr (mkResponse 201
                      [ ("success", JBool true);
                        ("message", JStr "User created successfully");
                        ("userId", id) ]))
          [ create_user_request cfg (body req) ] []
    | inl e =>
        mkRun (inr (failure 500 "Error creating user account"))
          [ create_user_request cfg (body req) ]
          [ ("Signup error:", JStr (error_message e)) ]
    end.
Proof.
  unfold signup_valid, absent. intros H%negb_true_iff He.
  unfold run, signup. rewrite H. unfold create_user_request in *.
  cbn. rewrite He. cbn.
  destruct (resp_data resp); reflexivity.
Qed.

(** ** Login, run by run *)

Lemma login_run_invalid cfg req up :
  absent (body req) "username" || absent (body req) "password" = true ->
  run (login cfg req) up
  = mkRun (inr (failure 400 "Username and password are required")) [] [].
Proof. unfold absent, run, login. now intros ->. Qed.

Lemma login_authData cfg req u p :
  ToString (js_get (body req) "username") = Some u ->
  ToString (js_get (body req) "password") = Some p ->
  URLSearchParams
    [ ("username", js_get (body req) "username");
      ("password", js_get (body req) "password");
      ("grant_type", JStr "password");
      ("client_id", env_value (CLIENT_ID cfg));
      ("client_secret", env_value (CLIENT_SECRET cfg));
      ("scope", JStr "openid profile email") ]
  = Ret [ ("username", u); ("password", p); ("grant_type", "password");
          ("client_id", env (CLIENT_ID cfg));
          ("client_secret", env (CLIENT_SECRET cfg));
          ("scope", "openid profile email") ].
Proof.
  intros Hu Hp. cbn. unfold interpolate.
  rewrite Hu, Hp, !env_value_ToString. reflexivity.
Qed.

Lemma login_run_rejected cfg req up u p e :
  absent (body req) "username" || absent (body req) "password" = false ->
  ToString (js_get (body req) "username") = Some u ->
  ToString (js_get (body req) "password") = Some p ->
  up [] (token_request cfg u p) = Rejected e ->
  run (login cfg req) up
  = mkRun (inr authentication_failed) [ token_request cfg u p ]
      [ ("Login error:", error_detail e) ].
Proof.
  unfold absent. intros Hv Hu Hp He. unfold run, login. rewrite Hv.
  cbn [negb orb]. rewrite (login_authData cfg req u p Hu Hp).
  unfold token_request in He. cbn. rewrite He. reflexivity.
Qed.

Lemma login_run_resolved cfg req up u p resp :
  absent (body req) "username" || absent (body req) "password" = false ->
  ToString (js_get (body req) "username") = Some u ->
  ToString (js_get (body req) "password") = Some p ->
  up [] (token_request cfg u p) = Resolved resp ->
  run (login cfg req) up
  = match GetV (resp_data resp) "access_token" with
    | inr access_token =>
        mkRun (inr (mkResponse 200
                      [ ("success", JBool true);
                        ("message", JStr "Login successful");
                        ("token", access_token);
                        ("id_token", optional_get (resp_data resp) "id_token");
                        ("expires_in",
                         optional_get (resp_data resp) "expires_in") ]))
          [ token_request cfg u p ] []
    | inl e =>
        mkRun (inr authentication_failed) [ token_request cfg u p ]
          [ ("Login error:", JStr (error_message e)) ]
    end.
Proof.
  unfold absent. intros Hv Hu Hp He. unfold run, login. rewrite Hv.
  cbn [negb orb]. rewrite (login_authData cfg req u p Hu Hp).
  unfold token_request in He. cbn. rewrite He. cbn.
  destruct (resp_data resp); reflexivity.
Qed.

Lemma login_run_unconvertible cfg req up :
  absent (body req) "username" || absent (body req) "password" = false ->
  ToString (js_get (body req) "username") = None
  \/ ToString (js_get (body req) "password") = None ->
  run (login cfg req) up
  = mkRun (inr authentication_failed) []
      [ ("Login error:", JStr "Cannot convert object to primitive value") ].
Proof.
  unfold absent. intros Hv Hc. unfold run, login. rewrite Hv.
  cbn [negb orb]. cbn. unfold interpolate.
  destruct (ToString (js_get (body req) "username")) as [u|]; cbn;
    [|reflexivity].
  destruct Hc as [Hc|Hc]; [discriminate|]. rewrite Hc. reflexivity.
Qed.

(** ** Get Profile, run by run *)

Lemma get_profile_run cfg req up :
  no_bearer (headers_authorization req) = false ->
  run (get_profile cfg req) up
  = match up [] (userinfo_request cfg (headers_authorization req)) with
    | Resolved resp =>
        mkRun (inr (mkResponse 200 [ ("success", JBool true);
                                     ("profile", resp_data resp) ]))
          [ userinfo_request cfg (headers_authorization req) ] []
    | Rejected e =>
        mkRun (inr (failure 401 "Failed to fetch user profile"))
          [ userinfo_request cfg (headers_authorization req) ]
          [ ("Profile fetch error:", error_detail e) ]
    end.
Proof.
  intros Hb. unfold run, get_profile, userinfo_request. rewrite Hb. cbn.
  destruct (up [] _); reflexivity.
Qed.

Lemma get_profile_run_no_bearer cfg req up :
  no_bearer (headers_authorization req) = true ->
  run (get_profile cfg req) up
  = mkRun (inr (failure 401 "No token provided")) [] [].
Proof. intros Hb. unfold run, get_profile. now rewrite Hb. Qed.

(** ** Password Reset and Logout, run by run *)

Lemma reset_password_run cfg req up :
  run (reset_password cfg req) up
  = if absent (body req) "email"
    then mkRun (inr (failure 400 "Email is required")) [] []
    else
      match ToString (js_get (body req) "email") with
      | None =>
          mkRun (inr (failure 400 "Failed to send password reset email")) []
            [ ("Password reset error:",
               JStr "Cannot convert object to primitive value") ]
      | Some user =>
          match up [] (reset_request cfg user) with
          | Resolved _ =>
              mkRun (inr (success 200 "Password reset email sent"))
                [ reset_request cfg user ] []
          | Rejected e =>
              mkRun (inr (failure 400 "Failed to send password reset email"))
                [ reset_request cfg user ]
                [ ("Password reset error:", error_detail e) ]
          end
      end.
Proof.
  unfold absent, run, reset_password, reset_request, interpolate.
  destruct (truthy (js_get (body req) "email")); [|reflexivity].
  cbn [negb]. destruct (ToString (js_get (body req) "email")); [|reflexivity].
  cbn. destruct (up [] _); reflexivity.
Qed.

Lemma logout_run cfg req up :
  run (logout cfg req) up
  = if absent (body req) "token"
    then mkRun (inr (failure 400 "Token is required")) [] []
    else
      match ToString (js_get (body req) "token") with
      | None =>
          mkRun (inr (failure 500 "Failed to logout")) []
            [ ("Logout error:",
               JStr "Cannot convert object to primitive value") ]
      | Some token =>
          match up [] (revoke_request cfg token) with
          | Resolved _ =>
              mkRun (inr (success 200 "Logged out successfully"))
                [ revoke_request cfg token ] []
          | Rejected e =>
              mkRun (inr (failure 500 "Failed to logout"))
                [ revoke_request cfg token ]
                [ ("Logout error:", error_detail e) ]
          end
      end.
Proof.
  unfold absent, run, logout, revoke_request.
  destruct (truthy (js_get (body req) "token")); [|reflexivity].
  cbn [negb]. cbn. unfold interpolate.
  destruct (ToString (js_get (body req) "token")); [|reflexivity].
  rewrite !env_value_ToString. cbn. destruct (up [] _); reflexivity.
Qed.

(** ** Update Profile, run by run *)

Lemma update_profile_run_no_bearer cfg req up :
  no_bearer (headers_authorization req) = true ->
  run (update_profile cfg req) up
  = mkRun (inr (failure 401 "No token provided")) [] [].
Proof. intros Hb. unfold run, update_profile. now rewrite Hb. Qed.

Lemma update_profile_run_no_sub cfg req up resp e :
  no_bearer (headers_authorization req) = false ->
  up [] (userinfo_request cfg (headers_authorization req)) = Resolved resp ->
  GetV (resp_data resp) "sub" = inl e ->
  run (update_profile cfg req) up
  = mkRun (inr (failure 500 "Failed to update profile"))
      [ userinfo_request cfg (headers_authorization req) ]
      [ ("Profile update error:", JStr (error_message e)) ].
Proof.
  intros Hb Hup Hsub. unfold run, update_profile. rewrite Hb.
  unfold userinfo_request in Hup. cbn in Hup |- *. rewrite Hup. cbn.
  rewrite Hsub. destruct (resp_data resp); try discriminate;
    injection Hsub as <-; reflexivity.
Qed.

Lemma update_profile_run_patch cfg req up sub profile :
  userinfo_sub cfg req up sub ->
  fill_profile (body req) = Ret profile ->
  profile <> [] ->
  run (update_profile cfg req) up
  = match ToString sub with
    | None =>
        mkRun (inr (failure 500 "Failed to update profile"))
          [ userinfo_request cfg (headers_authorization req) ]
          [ ("Profile update error:",
             JStr "Cannot convert object to primitive value") ]
    | Some id =>
        let userinfo := userinfo_request cfg (headers_authorization req) in
        let patch :=
          profile_patch_request cfg id (with_login (body req) profile) in
        match up [ userinfo ] patch with
        | Resolved _ =>
            mkRun (inr (success 200 "Profile updated successfully"))
              [ userinfo; patch ] []
        | Rejected e =>
            mkRun (inr (validation_response "Failed to update profile" e))
              [ userinfo; patch ]
              [ ("Profile update error:", error_detail e) ]
        end
    end.
Proof.
  intros (Hb & resp & Hup & Hsub) Hfill Hne.
  unfold run, update_profile. rewrite Hb, Hfill.
  unfold userinfo_request in *. cbn in Hup |- *. rewrite Hup. cbn.
  rewrite Hsub. cbn.
  destruct profile as [|entry profile]; [contradiction|].
  unfold interpolate. cbn [length Object_keys map Nat.eqb].
  destruct (ToString sub) as [id|]; [|reflexivity].
  unfold profile_patch_request, with_login. cbn.
  match goal with
  | |- context [up [ ?u ] ?p] => destruct (up [ u ] p) as [r|e]
  end; [reflexivity|]. cbn.
  apply (exec_validation_branch "Failed to update profile").
Qed.

(** ** The shapes a run can take *)

(** Each lemma lists, for one handler, every shape its run can have; a
    property of all runs is proved by checking it on these. *)

Lemma signup_run_cases cfg req up (P : Run Response -> Prop) :
  P (mkRun (inr (failure 400 "Missing required fields")) [] []) ->
  (forall id,
      P (mkRun (inr (mkResponse 201
                       [ ("success", JBool true);
                         ("message", JStr "User created successfully");
                         ("userId", id) ]))
           [ create_user_request cfg (body req) ] [])) ->
  (forall detail,
      P (mkRun (inr (failure 500 "Error creating user account"))
           [ create_user_request cfg (body req) ]
           [ ("Signup error:", detail) ])) ->
  (forall e,
      P (mkRun (inr (validation_response "Error creating user account" e))
           [ create_user_request cfg (body req) ]
           [ ("Signup error:", error_detail e) ])) ->
  P (run (signup cfg req) up).
Proof.
  intros Hinvalid Hcreated Hunreadable Hrejected.
  destruct (signup_valid (body req)) eqn:Hv.
  - destruct (up [] (create_user_request cfg (body req))) as [resp|e] eqn:Hup.
    + rewrite (signup_run_resolved cfg req up resp Hv Hup).
      destruct (GetV (resp_data resp) "id"); auto.
    + rewrite (signup_run_rejected cfg req up e Hv Hup). auto.
  - now rewrite (signup_run_invalid cfg req up Hv).
Qed.

Lemma login_run_cases cfg req up (P : Run Response -> Prop) :
  P (mkRun (inr (failure 400 "Username and password are required")) [] []) ->
  (forall detail,
      P (mkRun (inr authentication_failed) [] [ ("Login error:", detail) ])) ->
  (forall u p access_token id_token expires_in,
      P (mkRun (inr (mkResponse 200
                       [ ("success", JBool true);
                         ("message", JStr "Login successful");
                         ("token", access_token);
                         ("id_token", id_token);
                         ("expires_in", expires_in) ]))
           [ token_request cfg u p ] [])) ->
  (forall u p detail,
      P (mkRun (inr authentication_failed) [ token_request cfg u p ]
           [ ("Login error:", detail) ])) ->
  P (run (login cfg req) up).
Proof.
  intros Hinvalid Hconv Hok Hfailed.
  destruct (absent (body req) "username" || absent (body req) "password")
    eqn:Hv; [now rewrite (login_run_invalid cfg req up Hv)|].
  destruct (ToString (js_get (body req) "username")) as [u|] eqn:Hu;
    [|rewrite (login_run_unconvertible cfg req up Hv); auto].
  destruct (ToString (js_get (body req) "password")) as [p|] eqn:Hp;
    [|rewrite (login_run_unconvertible cfg req up Hv); auto].
  destruct (up [] (token_request cfg u p)) as [resp|e] eqn:Hup.
  - rewrite (login_run_resolved cfg req up u p resp Hv Hu Hp Hup).
    destruct (GetV (resp_data resp) "access_token"); auto.
  - rewrite (login_run_rejected cfg req up u p e Hv Hu Hp Hup). auto.
Qed.

Lemma get_profile_run_cases cfg req up (P : Run Response -> Prop) :
  P (mkRun (inr (failure 401 "No token provided")) [] []) ->
  (forall data,
      P (mkRun (inr (mkResponse 200 [ ("success", JBool true);
                                      ("profile", data) ]))
           [ userinfo_request cfg (headers_authorization req) ] [])) ->
  (forall detail,
      P (mkRun (inr (failure 401 "Failed to fetch user profile"))
           [ userinfo_request cfg (headers_authorization req) ]
           [ ("Profile fetch error:", detail) ])) ->
  P (run (get_profile cfg req) up).
Proof.
  intros Hnone Hok Hfailed.
  destruct (no_bearer (headers_authorization req)) eqn:Hb.
  - now rewrite (get_profile_run_no_bearer cfg req up Hb).
  - rewrite (get_profile_run cfg req up Hb). destruct (up [] _); auto.
Qed.

Lemma reset_password_run_cases cfg req up (P : Run Response -> Prop) :
  P (mkRun (inr (failure 400 "Email is required")) [] []) ->
  (forall detail,
      P (mkRun (inr (failure 400 "Failed to send password reset email")) []
           [ ("Password reset error:", detail) ])) ->
  (forall user,
      P (mkRun (inr (success 200 "Password reset email sent"))
           [ reset_request cfg user ] [])) ->
  (forall user detail,
      P (mkRun (inr (failure 400 "Failed to send password reset email"))
           [ reset_request cfg user ]
           [ ("Password reset error:", detail) ])) ->
  P (run (reset_password cfg req) up).
Proof.
  intros Hmissing Hconv Hok Hfailed. rewrite reset_password_run.
  destruct (absent (body req) "email"); auto.
  destruct (ToString (js_get (body req) "email")); auto.
  destruct (up [] _); auto.
Qed.

Lemma logout_run_cases cfg req up (P : Run Response -> Prop) :
  P (mkRun (inr (failure 400 "Token is required")) [] []) ->
  (forall detail,
      P (mkRun (inr (failure 500 "Failed to logout")) []
           [ ("Logout error:", detail) ])) ->
  (forall token,
      P (mkRun (inr (success 200 "Logged out successfully"))
           [ revoke_request cfg token ] [])) ->
  (forall token detail,
      P (mkRun (inr (failure 500 "Failed to logout"))
           [ revoke_request cfg token ]
           [ ("Logout error:", detail) ])) ->
  P (run (logout cfg req) up).
Proof.
  intros Hmissing Hconv Hok Hfailed. rewrite logout_run.
  destruct (absent (body req) "token"); auto.
  destruct (ToString (js_get (body req) "token")); auto.
  destruct (up [] _); auto.
Qed.

Lemma update_profile_run_cases cfg req up (P : Run Response -> Prop) :
  let userinfo := userinfo_request cfg (headers_authorization req) in
  P (mkRun (inr (failure 401 "No token provided")) [] []) ->
  P (mkRun (inr (failure 401 "Invalid token")) [ userinfo ] []) ->
  (forall detail,
      P (mkRun (inr (failure 500 "Failed to update profile")) [ userinfo ]
           [ ("Profile update error:", detail) ])) ->
  P (mkRun (inr (failure 400 "No valid fields to update")) [ userinfo ] []) ->
  (forall id profile,
      P (mkRun (inr (success 200 "Profile updated successfully"))
           [ userinfo; profile_patch_request cfg id profile ] [])) ->
  (forall id profile e,
      P (mkRun (inr (validation_response "Failed to update profile" e))
           [ userinfo; profile_patch_request cfg id profile ]
           [ ("Profile update error:", error_detail e) ])) ->
  P (run (update_profile cfg req) up).
Proof.
  intros userinfo Hnone Hinvalid Hbroken Hempty Hok Hfailed.
  destruct (no_bearer (headers_authorization req)) eqn:Hb;
    [now rewrite (update_profile_run_no_bearer cfg req up Hb)|].
  destruct (up [] userinfo) as [resp|e] eqn:Hup;
    [|now rewrite (update_profile_unauthorised cfg req up e Hb Hup)].
  destruct (GetV (resp_data resp) "sub") as [e|sub] eqn:Hsub;
    [rewrite (update_profile_run_no_sub cfg req up resp e Hb Hup Hsub); auto|].
  assert (Hs : userinfo_sub cfg req up sub) by (split; eauto).
  destruct (fill_profile_total (body req)) as [[|entry profile] Hfill].
  - now rewrite (update_profile_empty cfg req up sub Hs Hfill).
  - rewrite (update_profile_run_patch cfg req up sub _ Hs Hfill)
      by discriminate.
    destruct (ToString sub) as [id|]; [|apply Hbroken]. cbv zeta.
    match goal with
    | |- context [up [ ?u ] ?p] => destruct (up [ u ] p)
    end; [apply Hok|apply Hfailed].
Qed.

(** ** Every request is answered *)

Ltac check_answer :=
  unfold answers, validation_response, authentication_failed, failure, success;
  cbn [response_of outcome];
  repeat match goal with
         | |- context [if ?c then _ else _] => destruct c
         end;
  eexists; eexists;
  (split; [reflexivity|]); (split; [cbn; tauto|]); split; reflexivity.

(** No exception escapes a handler: whatever the request and whatever the
    provider does, each route answers, with one of its own status codes and
    a [success] flag that agrees with the status. *)
Theorem every_request_is_answered cfg req up :
  answers (signup cfg req) up [ 201; 400; 500 ]%Z
  /\ answers (login cfg req) up [ 200; 400; 401 ]%Z
  /\ answers (get_profile cfg req) up [ 200; 401 ]%Z
  /\ answers (update_profile cfg req) up [ 200; 400; 401; 500 ]%Z
  /\ answers (reset_password cfg req) up [ 200; 400 ]%Z
  /\ answers (logout cfg req) up [ 200; 400; 500 ]%Z.
Proof.
  repeat match goal with |- _ /\ _ => split end.
  - apply (signup_run_cases cfg req up
             (fun out => exists resp b,
                  response_of out = Some resp /\ _)); intros; check_answer.
  - apply (login_run_cases cfg req up
             (fun out => exists resp b,
                  response_of out = Some resp /\ _)); intros; check_answer.
  - apply (get_profile_run_cases cfg req up
             (fun out => exists resp b,
                  response_of out = Some resp /\ _)); intros; check_answer.
  - apply (update_profile_run_cases cfg req up
             (fun out => exists resp b,
                  response_of out = Some resp /\ _)); intros; check_answer.
  - apply (reset_password_run_cases cfg req up
             (fun out => exists resp b,
                  response_of out = Some resp /\ _)); intros; check_answer.
  - apply (logout_run_cases cfg req up
             (fun out => exists resp b,
                  response_of out = Some resp /\ _)); intros; check_answer.
Qed.

(** ** Get Profile *)

(** With a Bearer header, Get Profile makes the userinfo call and nothing
    else; it hands the provider's answer to the caller unchanged as
    [profile], and answers every failure of the call, whatever the error,
    with the same 401, the error detail going to the log only. *)
Theorem get_profile_outcomes cfg req up :
  no_bearer (headers_authorization req) = false ->
  let userinfo := userinfo_request cfg (headers_authorization req) in
  let out := run (get_profile cfg req) up in
  calls out = [ userinfo ]
  /\ (forall resp,
         up [] userinfo = Resolved resp ->
         response_of out
         = Some (mkResponse 200 [ ("success", JBool true);
                                  ("profile", resp_data resp) ])
         /\ console out = [])
  /\ (forall e,
         up [] userinfo = Rejected e ->
         response_of out = Some (failure 401 "Failed to fetch user profile")
         /\ console out = [ ("Profile fetch error:", error_detail e) ]).
Proof.
  intros Hb userinfo out. subst out userinfo.
  rewrite (get_profile_run cfg req up Hb).
  split; [destruct (up [] _); reflexivity|]. split.
  - intros resp ->. split; reflexivity.
  - intros e ->. split; reflexivity.
Qed.

(** ** Logout *)

(** A logout with a truthy [token] revokes it as an access token in one
    form-encoded call; success is answered 200 and every failure, whatever
    the error, with the same 500.  A token that cannot be converted to a
    string is answered with that 500 without any call. *)
Theorem logout_outcomes cfg req up :
  absent (body req) "token" = false ->
  let out := run (logout cfg req) up in
  (forall token,
      ToString (js_get (body req) "token") = Some token ->
      calls out = [ revoke_request cfg token ]
      /\ (forall resp,
             up [] (revoke_request cfg token) = Resolved resp ->
             response_of out = Some (success 200 "Logged out successfully"))
      /\ (forall e,
             up [] (revoke_request cfg token) = Rejected e ->
             response_of out = Some (failure 500 "Failed to logout")
             /\ console out = [ ("Logout error:", error_detail e) ]))
  /\ (ToString (js_get (body req) "token") = None ->
      calls out = []
      /\ response_of out = Some (failure 500 "Failed to logout")).
Proof.
  intros Hp out. subst out. rewrite logout_run, Hp. split.
  - intros token ->. split; [destruct (up [] _); reflexivity|].
    split.
    + intros resp ->. reflexivity.
    + intros e ->. split; reflexivity.
  - intros ->. split; reflexivity.
Qed.

(** ** Login *)

(** A login whose credentials convert to strings makes one form-encoded
    password-grant call carrying them; when that call succeeds the answer is
    200 with [token], [id_token] and [expires_in] read from the provider's
    body -- unless that body is [null] or [undefined], in which case the
    answer is the 401 of a failed login. *)
Theorem login_outcomes cfg req up u p :
  absent (body req) "username" || absent (body req) "password" = false ->
  ToString (js_get (body req) "username") = Some u ->
  ToString (js_get (body req) "password") = Some p ->
  let out := run (login cfg req) up in
  calls out = [ token_request cfg u p ]
  /\ (forall resp props,
         up [] (token_request cfg u p) = Resolved resp ->
         resp_data resp = JObj props ->
         response_of out
         = Some (mkResponse 200
                   [ ("success", JBool true);
                     ("message", JStr "Login successful");
                     ("token", js_get props "access_token");
                     ("id_token", js_get props "id_token");
                     ("expires_in", js_get props "expires_in") ])
         /\ console out = [])
  /\ (forall resp,
         up [] (token_request cfg u p) = Resolved resp ->
         resp_data resp = JNull \/ resp_data resp = JUndefined ->
         response_of out = Some authentication_failed).
Proof.
  intros Hv Hu Hp out. subst out. split; [|split].
  - destruct (up [] (token_request cfg u p)) as [resp|e] eqn:Hup.
    + rewrite (login_run_resolved cfg req up u p resp Hv Hu Hp Hup).
      destruct (GetV _ _); reflexivity.
    + now rewrite (login_run_rejected cfg req up u p e Hv Hu Hp Hup).
  - intros resp props Hup Hdata.
    rewrite (login_run_resolved cfg req up u p resp Hv Hu Hp Hup), Hdata.
    split; reflexivity.
  - intros resp Hup Hdata.
    rewrite (login_run_resolved cfg req up u p resp Hv Hu Hp Hup).
    destruct Hdata as [-> | ->]; reflexivity.
Qed.

(** ** Signup *)

(** When the creation call succeeds but the provider's body is [null] or
    [undefined], the caller is told 500 although the user has been
    created: the call was made and no other follows. *)
Theorem signup_created_but_unreadable cfg req up resp :
  signup_valid (body req) = true ->
  up [] (create_user_request cfg (body req)) = Resolved resp ->
  resp_data resp = JNull \/ resp_data resp = JUndefined ->
  response_of (run (signup cfg req) up)
  = Some (failure 500 "Error creating user account")
  /\ calls (run (signup cfg req) up)
     = [ create_user_request cfg (body req) ].
Proof.
  intros Hv Hup Hdata.
  rewrite (signup_run_resolved cfg req up resp Hv Hup).
  destruct Hdata as [-> | ->]; split; reflexivity.
Qed.

(** ** Update Profile *)

(** Once the patch call of Update Profile is made, its success is answered
    200; its failure is answered 400 with the provider's [errorSummary] and
    [errorCauses] when the error body has truthy [errorCauses], and with
    the generic 500 otherwise; either way the failure is logged. *)
Theorem update_profile_patch_outcomes cfg req up id profile :
  subject cfg req up id ->
  fill_profile (body req) = Ret profile ->
  profile <> [] ->
  let userinfo := userinfo_request cfg (headers_authorization req) in
  let patch := profile_patch_request cfg id (with_login (body req) profile) in
  let out := run (update_profile cfg req) up in
  (forall resp,
      up [ userinfo ] patch = Resolved resp ->
      response_of out = Some (success 200 "Profile updated successfully")
      /\ console out = [])
  /\ (forall e,
         up [ userinfo ] patch = Rejected e ->
         truthy (optional_get (error_response_data e) "errorCauses") = true ->
         response_of out
         = Some (mkResponse 400
                   [ ("success", JBool false);
                     ("message",
                      optional_get (error_response_data e) "errorSummary");
                     ("errors",
                      optional_get (error_response_data e) "errorCauses") ])
         /\ console out = [ ("Profile update error:", error_detail e) ])
  /\ (forall e,
         up [ userinfo ] patch = Rejected e ->
         truthy (optional_get (error_response_data e) "errorCauses") = false ->
         response_of out = Some (failure 500 "Failed to update profile")
         /\ console out = [ ("Profile update error:", error_detail e) ]).
Proof.
  intros (sub & Hs & Hid) Hfill Hne userinfo patch out.
  subst out patch userinfo.
  rewrite (update_profile_run_patch cfg req up sub profile Hs Hfill Hne), Hid.
  cbv zeta. split; [|split].
  - intros resp ->. split; reflexivity.
  - intros e -> Hc. unfold validation_response. rewrite Hc.
    split; reflexivity.
  - intros e -> Hc. unfold validation_response. rewrite Hc.
    split; reflexivity.
Qed.

(** A userinfo call that succeeds with a [null] or [undefined] body is not
    treated as an invalid token: the answer is 500, not 401, and no patch
    call is made. *)
Theorem update_profile_unreadable_userinfo cfg req up resp :
  no_bearer (headers_authorization req) = false ->
  up [] (userinfo_request cfg (headers_authorization req)) = Resolved resp ->
  resp_data resp = JNull \/ resp_data resp = JUndefined ->
  response_of (run (update_profile cfg req) up)
  = Some (failure 500 "Failed to update profile")
  /\ calls (run (update_profile cfg req) up)
     = [ userinfo_request cfg (headers_authorization req) ].
Proof.
  intros Hb Hup Hdata.
  destruct (GetV (resp_data resp) "sub") as [e|sub] eqn:Hsub.
  - now rewrite (update_profile_run_no_sub cfg req up resp e Hb Hup Hsub).
  - destruct Hdata as [Hd|Hd]; rewrite Hd in Hsub; discriminate.
Qed.

(** ** The allow-list test and the patch object *)

(** The test [allowedFields[key]] of the loop accepts exactly the 30 keys
    written in [allowedFields] and the 12 property names every object
    literal inherits from [Object.prototype]. *)
Theorem allow_test_accepts key :
  truthy (js_get allowedFields key) = in_allow_list key || inherited_name key.
Proof.
  unfold in_allow_list, inherited_name, js_get, inherited.
  destruct (own_get allowedFields key) as [v|] eqn:E.
  - assert (Hin : in_allow_list key = true)
      by (unfold in_allow_list; now rewrite E).
    apply allowedFields_identity in E. subst v.
    now rewrite (allowed_name_truthy key Hin).
  - destruct (own_get Object_prototype key) as [v|] eqn:P; [|reflexivity].
    now apply (own_get_forallb (fun e => truthy (snd e))) in P.
Qed.

Lemma In_js_set o key value k v :
  In (k, v) (js_set o key value) -> (k = key /\ v = value) \/ In (k, v) o.
Proof.
  induction o as [|[k0 v0] rest IH]; cbn.
  - intros [[= <- <-]|[]]. now left.
  - destruct (k0 =? key) eqn:E; cbn.
    + apply String.eqb_eq in E. subst k0.
      intros [[= <- <-]|H]; [now left|right; now right].
    + intros [H|H]; [right; now left|].
      destruct (IH H) as [?|?]; [now left|right; now right].
Qed.

Lemma Object_keys_js_set o key value :
  Object_keys (js_set o key value)
  = if existsb (String.eqb key) (Object_keys o)
    then Object_keys o
    else (Object_keys o ++ [ key ])%list.
Proof.
  unfold Object_keys. induction o as [|[k0 v0] rest IH]; cbn; [reflexivity|].
  rewrite (String.eqb_sym key k0).
  destruct (k0 =? key) eqn:E; cbn; [reflexivity|].
  rewrite IH. now destruct (existsb _ _).
Qed.

Lemma js_set_NoDup o key value :
  NoDup (Object_keys o) -> NoDup (Object_keys (js_set o key value)).
Proof.
  intros Hnd. rewrite Object_keys_js_set.
  destruct (existsb (String.eqb key) (Object_keys o)) eqn:E; [exact Hnd|].
  apply NoDup_app; [exact Hnd|repeat constructor; intros []|].
  intros k Hk [Heq|[]]. subst k.
  assert (existsb (String.eqb key) (Object_keys o) = true); [|congruence].
  apply existsb_exists. exists key. split; [exact Hk|apply String.eqb_refl].
Qed.

Lemma js_set_length o key value :
  (length (js_set o key value) <= S (length o))%nat.
Proof.
  induction o as [|[k0 v0] rest IH]; cbn; [lia|].
  destruct (k0 =? key); cbn; lia.
Qed.

(** What one turn of the loop does to the profile. *)
Lemma copy_field_spec key value profile :
  copy_field (key, value) profile = Ret profile
  \/ exists name,
      truthy (js_get allowedFields key) = true
      /\ value <> JUndefined
      /\ ToString (js_get allowedFields key) = Some name
      /\ copy_field (key, value) profile = Ret (js_set profile name value).
Proof.
  unfold copy_field, interpolate.
  destruct (truthy (js_get allowedFields key)) eqn:Ht; [|now left].
  destruct (ToString_allowedFields key) as [field Hn]. rewrite Hn.
  destruct value; cbn [not_undefined andb]; try (now left);
    right; exists field; repeat split; discriminate.
Qed.

Lemma for_of_copy_field_invariant entries :
  forall acc,
    NoDup (Object_keys acc) ->
    exists profile,
      for_of entries copy_field acc = Ret profile
      /\ NoDup (Object_keys profile)
      /\ (length profile <= length acc + length entries)%nat
      /\ forall name value,
          In (name, value) profile ->
          In (name, value) acc
          \/ exists key,
              In (key, value) entries
              /\ value <> JUndefined
              /\ truthy (js_get allowedFields key) = true
              /\ ToString (js_get allowedFields key) = Some name.
Proof.
  induction entries as [|[key value] rest IH]; intros acc Hnd.
  - exists acc. cbn. repeat split; auto. lia.
  - cbn [for_of].
    destruct (copy_field_spec key value acc)
      as [Hstep|(name & Ht & Hv & Hn & Hstep)]; rewrite Hstep;
      cbn [bind Monad_Prog Prog_bind].
    + destruct (IH acc Hnd) as (profile & Hrun & Hnd' & Hlen & Hfrom).
      exists profile. repeat split; auto; [cbn; lia|].
      intros n v Hin. destruct (Hfrom n v Hin) as [?|(k & Hk & ?)];
        [now left|right]. exists k. split; [now right|auto].
    + destruct (IH (js_set acc name value) (js_set_NoDup _ _ _ Hnd))
        as (profile & Hrun & Hnd' & Hlen & Hfrom).
      exists profile. repeat split; auto.
      * pose proof (js_set_length acc name value). cbn. lia.
      * intros n v Hin. destruct (Hfrom n v Hin) as [Hacc|(k & Hk & ?)].
        -- apply In_js_set in Hacc as [[-> ->]|Hacc]; [right|now left].
           exists key. repeat split; auto. now left.
        -- right. exists k. split; [now right|auto].
Qed.

(** Whatever the body, the loop produces an object with distinct keys and
    no more entries than the body has, and every entry of it is the value
    of a body entry that passed the allow-list test and is not [undefined],
    stored under the name the test yielded. *)
Theorem fill_profile_invariant o :
  exists profile,
    fill_profile o = Ret profile
    /\ NoDup (Object_keys profile)
    /\ (length profile <= length o)%nat
    /\ forall name value,
        In (name, value) profile ->
        exists key,
          In (key, value) o
          /\ value <> JUndefined
          /\ truthy (js_get allowedFields key) = true
          /\ ToString (js_get allowedFields key) = Some name.
Proof.
  destruct (for_of_copy_field_invariant o [] (NoDup_nil _))
    as (profile & Hrun & Hnd & Hlen & Hfrom).
  exists profile. repeat split; auto.
  intros name value Hin. destruct (Hfrom name value Hin) as [[]|H]; exact H.
Qed.

Lemma field_name_is_not_login key name :
  truthy (js_get allowedFields key) = true ->
  ToString (js_get allowedFields key) = Some name ->
  name <> "login".
Proof.
  unfold js_get, inherited.
  destruct (own_get allowedFields key) as [v|] eqn:E.
  - pose proof (allowedFields_identity _ _ E) as ->. cbn.
    intros _ [= <-] ->. discriminate.
  - destruct (own_get Object_prototype key) as [v|] eqn:P; [|discriminate].
    apply (own_get_forallb
             (fun e => match ToString (snd e) with
                       | Some s => negb (s =? "login")
                       | None => true
                       end)) in P; [|reflexivity].
    cbn in P. intros _ Hn. rewrite Hn in P. intros ->. discriminate.
Qed.

Lemma fill_profile_has_no_login o profile :
  fill_profile o = Ret profile -> own_get profile "login" = None.
Proof.
  intros Hfill.
  destruct (for_of_copy_field_invariant o [] (NoDup_nil _))
    as (profile' & Hrun & _ & _ & Hfrom).
  unfold fill_profile, Object_entries in Hfill. rewrite Hfill in Hrun.
  injection Hrun as <-.
  destruct (own_get profile "login") as [v|] eqn:E; [|reflexivity].
  apply own_get_In in E.
  destruct (Hfrom _ _ E) as [[]|(key & _ & _ & Ht & Hn)].
  now destruct (field_name_is_not_login key "login" Ht Hn).
Qed.

(** A [login] that is absent from the body or falsy never reaches the
    provider: no call of the run carries a profile with a [login] field,
    whatever else the body holds. *)
Theorem falsy_login_is_never_sent cfg req up :
  truthy (js_get (body req) "login") = false ->
  forall r profile,
    In r (calls (run (update_profile cfg req) up)) ->
    req_data r = JsonData (JObj [ ("profile", JObj profile) ]) ->
    own_get profile "login" = None.
Proof.
  intros Hlogin r profile.
  destruct (no_bearer (headers_authorization req)) eqn:Hb.
  { now rewrite update_profile_no_bearer_calls. }
  destruct (update_profile_calls cfg req up Hb)
    as [->|(id & filled & Hfill & _ & _ & ->)].
  - intros [<-|[]]. discriminate.
  - intros [<-|[<-|[]]]; [discriminate|]. cbn.
    unfold with_login. rewrite Hlogin. intros [= <-].
    now apply (fill_profile_has_no_login (body req)).
Qed.

Lemma for_of_copy_field_nothing entries :
  forall acc,
    plain_keys entries ->
    filter copied entries = [] ->
    for_of entries copy_field acc = Ret acc.
Proof.
  induction entries as [|[key value] rest IH]; intros acc Hplain Hnone;
    [reflexivity|].
  inversion Hplain as [|? ? Hkey Hplain']; subst.
  cbn [filter] in Hnone. cbn [for_of].
  rewrite (copy_field_plain key value acc Hkey).
  destruct (copied (key, value)); [discriminate|].
  cbn. now apply IH.
Qed.

(** The token is checked before the body: a request whose body has no
    allow-listed field with a defined value (and no key inherited from
    [Object.prototype]) is answered 400 only after its userinfo call has
    succeeded -- one upstream call is spent on it -- and a [login] in such a
    body does not make it an update. *)
Theorem nothing_to_update_costs_one_call cfg req up sub :
  plain_keys (body req) ->
  filter copied (body req) = [] ->
  userinfo_sub cfg req up sub ->
  run (update_profile cfg req) up
  = mkRun (inr (failure 400 "No valid fields to update"))
      [ userinfo_request cfg (headers_authorization req) ] [].
Proof.
  intros Hplain Hnone Hsub.
  apply (update_profile_empty cfg req up sub Hsub).
  now apply for_of_copy_field_nothing.
Qed.

(** ** What is logged and what is called *)

Ltac check_log :=
  cbv beta;
  unfold validation_response, authentication_failed, failure, success;
  cbn [console response_of outcome length];
  split; [lia|];
  intros resp; repeat match goal with
                      | |- context [if ?c then _ else _] => destruct c
                      end;
  intros [= <-]; cbn [status]; (reflexivity || lia).

(** A run writes at most one line to the error log, and none when the
    answer is a success. *)
Theorem error_log_discipline cfg req up h :
  In h handlers ->
  let out := run (h cfg req) up in
  (length (console out) <= 1)%nat
  /\ forall resp,
      response_of out = Some resp ->
      (status resp < 300)%Z ->
      console out = [].
Proof.
  intros Hh out. subst out.
  set (P := fun out : Run Response =>
              (length (console out) <= 1)%nat
              /\ forall resp,
                  response_of out = Some resp ->
                  (status resp < 300)%Z ->
                  console out = []).
  change (P (run (h cfg req) up)). unfold handlers in Hh.
  repeat destruct Hh as [<-|Hh]; try contradiction.
  - apply (signup_run_cases cfg req up P); subst P; intros; check_log.
  - apply (login_run_cases cfg req up P); subst P; intros; check_log.
  - apply (get_profile_run_cases cfg req up P); subst P; intros; check_log.
  - apply (update_profile_run_cases cfg req up P); subst P; intros;
      check_log.
  - apply (reset_password_run_cases cfg req up P); subst P; intros;
      check_log.
  - apply (logout_run_cases cfg req up P); subst P; intros; check_log.
Qed.

Ltac check_call :=
  intros;
  match goal with
  | Hin : In _ (calls _) |- _ =>
      cbn [calls] in Hin;
      repeat destruct Hin as [<-|Hin]; try contradiction
  end;
  first
    [ left; unfold management_call; cbn;
      repeat split; try reflexivity; eexists; reflexivity
    | right; unfold oauth_call; cbn; split;
      [ eexists; reflexivity
      | let v := fresh "v" in
        let Hv := fresh "Hv" in
        intros v Hv; repeat destruct Hv as [Hv|Hv];
        try discriminate; try contradiction;
        injection Hv as <-; reflexivity ] ].

(** The URL of every upstream call of every route is, as text, the
    configured domain followed by [/api/v1/users] or by [/oauth2/v1/]; a
    call of the first kind is a JSON POST carrying [oktaHeaders], and a
    call of the second kind carries no [Authorization] header but the
    caller's own bearer token. *)
Theorem calls_stay_with_the_provider cfg req up h r :
  In h handlers ->
  In r (calls (run (h cfg req) up)) ->
  management_call cfg r \/ oauth_call cfg req r.
Proof.
  intros Hh. revert r. unfold handlers in Hh.
  repeat destruct Hh as [<-|Hh]; try contradiction.
  - apply (signup_run_cases cfg req up
             (fun out => forall r, In r (calls out) -> _));
      check_call.
  - apply (login_run_cases cfg req up
             (fun out => forall r, In r (calls out) -> _));
      check_call.
  - apply (get_profile_run_cases cfg req up
             (fun out => forall r, In r (calls out) -> _));
      check_call.
  - apply (update_profile_run_cases cfg req up
             (fun out => forall r, In r (calls out) -> _));
      check_call.
  - apply (reset_password_run_cases cfg req up
             (fun out => forall r, In r (calls out) -> _));
      check_call.
  - apply (logout_run_cases cfg req up
             (fun out => forall r, In r (calls out) -> _));
      check_call.
Qed.

(** Configuration is never checked: with [OKTA_DOMAIN] and
    [OKTA_API_TOKEN] unset a valid signup still makes its call, to a URL
    and with a credential spelled [undefined]. *)
Theorem unset_configuration_is_not_detected cfg req up :
  OKTA_DOMAIN cfg = None ->
  OKTA_API_TOKEN cfg = None ->
  signup_valid (body req) = true ->
  exists r,
    calls (run (signup cfg req) up) = [ r ]
    /\ req_url r = "undefined/api/v1/users?activate=true"
    /\ In ("Authorization", "SSWS undefined") (req_headers r).
Proof.
  intros Hd Ht Hv. rewrite (signup_calls cfg req up Hv).
  eexists. split; [reflexivity|].
  unfold create_user_request, oktaHeaders. cbn [req_url req_headers].
  rewrite Hd, Ht. split; [reflexivity|]. cbn. auto.
Qed.

(** ** The bearer token *)

Lemma prefix_split p s :
  String.prefix p s = true -> exists rest, s = p ++ rest.
Proof.
  revert s. induction p as [|a p IH]; intros s.
  - intros _. now exists s.
  - destruct s as [|b s]; cbn; [discriminate|].
    destruct (ascii_dec a b) as [<-|]; [|discriminate].
    intros H. destruct (IH s H) as [rest ->]. now exists rest.
Qed.

Lemma split_space_head s :
  exists word rest words,
    split_space s = word :: words
    /\ s = word ++ rest
    /\ has_space word = false
    /\ (rest = "" \/ exists rest', rest = String " " rest').
Proof.
  induction s as [|c s (word & rest & words & Hsplit & Hs & Hw & Hrest)].
  - exists "", "", []. repeat split. now left.
  - cbn [split_space]. destruct (c =? " ")%char eqn:E.
    + apply Ascii.eqb_eq in E. subst c.
      exists "", (String " " s), (split_space s). repeat split.
      right. now exists s.
    + rewrite Hsplit. exists (String c word), rest, words.
      cbn. rewrite E, Hw, <- Hs. repeat split. exact Hrest.
Qed.

(** A header that passes the Bearer check always yields a token (never
    [undefined]): the text between [Bearer ] and the next space, or the end
    of the header.  It may be empty, and whatever follows a further space is
    dropped. *)
Theorem bearer_token_is_first_word h :
  no_bearer (Some h) = false ->
  exists token rest,
    h = "Bearer " ++ token ++ rest
    /\ bearer_token (Some h) = Some token
    /\ has_space token = false
    /\ (rest = "" \/ exists rest', rest = String " " rest').
Proof.
  cbn [no_bearer]. intros H. apply orb_false_iff in H as [_ H].
  apply negb_false_iff, prefix_split in H as [tail ->].
  destruct (split_space_head tail)
    as (word & rest & words & Hsplit & Hs & Hw & Hrest).
  exists word, rest. repeat split; auto.
  - now rewrite <- Hs.
  - cbn. now rewrite Hsplit.
Qed.

(** ** Inputs a handler does not read *)

(** Signup, Login, Password Reset and Logout read nothing of a request
    but their own body fields, and Get Profile nothing but the
    Authorization header: two requests that agree on those are handled
    identically. *)
Theorem handlers_read_only_their_inputs cfg up h1 h2 o1 o2 :
  (js_get o1 "firstName" = js_get o2 "firstName" ->
   js_get o1 "lastName" = js_get o2 "lastName" ->
   js_get o1 "email" = js_get o2 "email" ->
   js_get o1 "password" = js_get o2 "password" ->
   run (signup cfg (mkRequest h1 o1)) up
   = run (signup cfg (mkRequest h2 o2)) up)
  /\ (js_get o1 "username" = js_get o2 "username" ->
      js_get o1 "password" = js_get o2 "password" ->
      run (login cfg (mkRequest h1 o1)) up
      = run (login cfg (mkRequest h2 o2)) up)
  /\ (js_get o1 "email" = js_get o2 "email" ->
      run (reset_password cfg (mkRequest h1 o1)) up
      = run (reset_password cfg (mkRequest h2 o2)) up)
  /\ (js_get o1 "token" = js_get o2 "token" ->
      run (logout cfg (mkRequest h1 o1)) up
      = run (logout cfg (mkRequest h2 o2)) up)
  /\ run (get_profile cfg (mkRequest h1 o1)) up
     = run (get_profile cfg (mkRequest h1 o2)) up.
Proof.
  unfold signup, login, reset_password, logout, get_profile.
  cbn [body headers_authorization].
  repeat match goal with |- _ /\ _ => split end.
  - intros -> -> -> ->. reflexivity.
  - intros -> ->. reflexivity.
  - intros ->. reflexivity.
  - intros ->. reflexivity.
  - reflexivity.
Qed.

(** ** One token, two routes *)

(** Get Profile and Update Profile validate a token with the very same
    userinfo request.  When the provider rejects it both answer 401, with
    different messages, and only Get Profile writes the error to the log. *)
Theorem rejected_token_on_both_routes cfg req up e :
  no_bearer (headers_authorization req) = false ->
  up [] (userinfo_request cfg (headers_authorization req)) = Rejected e ->
  calls (run (get_profile cfg req) up) = calls (run (update_profile cfg req) up)
  /\ response_of (run (get_profile cfg req) up)
     = Some (failure 401 "Failed to fetch user profile")
  /\ response_of (run (update_profile cfg req) up)
     = Some (failure 401 "Invalid token")
  /\ console (run (get_profile cfg req) up)
     = [ ("Profile fetch error:", error_detail e) ]
  /\ console (run (update_profile cfg req) up) = [].
Proof.
  intros Hb He.
  rewrite (get_profile_run cfg req up Hb), He.
  rewrite (update_profile_unauthorised cfg req up e Hb He).
  repeat split.
Qed.

(** ** Further concrete runs *)

Lemma get_profile_outcomes_witness :
  response_of (run (get_profile cfg0 (bearer [])) upstream_ok)
  = Some (mkResponse 200
            [ ("success", JBool true);
              ("profile", JObj [ ("id", JStr "00u1"); ("sub", JStr "00u1") ]) ])
  /\ console (run (get_profile cfg0 (bearer [])) upstream_ok) = [].
Proof.
  exact (proj1 (proj2 (get_profile_outcomes cfg0 (bearer []) upstream_ok
                         eq_refl))
           _ eq_refl).
Defined.

Lemma logout_outcomes_witness :
  response_of (run (logout cfg0 (mkRequest None [ ("token", JStr "eyJraWQ") ]))
                 upstream_down)
  = Some (failure 500 "Failed to logout")
  /\ console (run (logout cfg0 (mkRequest None [ ("token", JStr "eyJraWQ") ]))
                upstream_down)
     = [ ("Logout error:", JStr "connect ECONNREFUSED") ].
Proof.
  exact (proj2 (proj2 (proj1 (logout_outcomes cfg0
                                (mkRequest None [ ("token", JStr "eyJraWQ") ])
                                upstream_down eq_refl)
                         "eyJraWQ" eq_refl))
           _ eq_refl).
Defined.

Lemma login_outcomes_witness :
  response_of (run (login cfg0 login_request) upstream_null)
  = Some authentication_failed.
Proof.
  exact (proj2 (proj2 (login_outcomes cfg0 login_request upstream_null
                         "ada@example.com" "wrong" eq_refl eq_refl eq_refl))
           _ eq_refl (or_introl eq_refl)).
Defined.

Lemma signup_created_but_unreadable_witness :
  response_of (run (signup cfg0 signup_request) upstream_null)
  = Some (failure 500 "Error creating user account")
  /\ calls (run (signup cfg0 signup_request) upstream_null)
     = [ create_user_request cfg0 (body signup_request) ].
Proof.
  exact (signup_created_but_unreadable cfg0 signup_request upstream_null
           (mkAxiosResponse 200 JNull) eq_refl eq_refl (or_introl eq_refl)).
Defined.

Lemma update_profile_patch_outcomes_witness :
  response_of
    (run (update_profile cfg0 (bearer [ ("mobilePhone", JStr "n/a") ]))
       upstream_refuses_patch)
  = Some (mkResponse 400
            [ ("success", JBool false);
              ("message", JStr "Api validation failed: mobilePhone");
              ("errors",
               JArr [ JObj [ ("errorSummary",
                              JStr "mobilePhone: Invalid phone number") ] ]) ]).
Proof.
  refine (proj1 (proj1 (proj2 (update_profile_patch_outcomes cfg0
                                 (bearer [ ("mobilePhone", JStr "n/a") ])
                                 upstream_refuses_patch "00u1"
                                 [ ("mobilePhone", JStr "n/a") ] _ eq_refl _))
                   _ eq_refl eq_refl)).
  - exists (JStr "00u1"). split; [|reflexivity].
    split; [reflexivity|]. eexists. split; reflexivity.
  - discriminate.
Defined.

Lemma update_profile_unreadable_userinfo_witness :
  response_of
    (run (update_profile cfg0 (bearer [ ("firstName", JStr "Ada") ]))
       upstream_null)
  = Some (failure 500 "Failed to update profile")
  /\ calls (run (update_profile cfg0 (bearer [ ("firstName", JStr "Ada") ]))
              upstream_null)
     = [ userinfo_request cfg0 (Some "Bearer eyJraWQ") ].
Proof.
  exact (update_profile_unreadable_userinfo cfg0
           (bearer [ ("firstName", JStr "Ada") ]) upstream_null
           (mkAxiosResponse 200 JNull) eq_refl eq_refl (or_introl eq_refl)).
Defined.

Lemma falsy_login_is_never_sent_witness :
  own_get [ ("firstName", JStr "Ada") ] "login" = None.
Proof.
  refine (falsy_login_is_never_sent cfg0
            (bearer [ ("firstName", JStr "Ada"); ("login", JNull) ])
            upstream_ok eq_refl
            (profile_patch_request cfg0 "00u1" [ ("firstName", JStr "Ada") ])
            [ ("firstName", JStr "Ada") ] _ eq_refl).
  cbn. right. left. reflexivity.
Defined.

Lemma nothing_to_update_costs_one_call_witness :
  run (update_profile cfg0 (bearer [ ("login", JStr "ada2") ])) upstream_ok
  = mkRun (inr (failure 400 "No valid fields to update"))
      [ userinfo_request cfg0 (Some "Bearer eyJraWQ") ] [].
Proof.
  refine (nothing_to_update_costs_one_call cfg0
            (bearer [ ("login", JStr "ada2") ]) upstream_ok (JStr "00u1")
            _ eq_refl _).
  - repeat constructor.
  - split; [reflexivity|]. eexists. split; reflexivity.
Defined.

Lemma error_log_discipline_witness :
  (length (console (run (login cfg0 login_request) upstream_down)) <= 1)%nat.
Proof.
  refine (proj1 (error_log_discipline cfg0 login_request upstream_down login
                   _)).
  cbn. right. left. reflexivity.
Defined.

Lemma calls_stay_with_the_provider_witness :
  management_call cfg0 (reset_request cfg0 "ada@example.com")
  \/ oauth_call cfg0 (mkRequest None [ ("email", JStr "ada@example.com") ])
       (reset_request cfg0 "ada@example.com").
Proof.
  refine (calls_stay_with_the_provider cfg0
            (mkRequest None [ ("email", JStr "ada@example.com") ])
            upstream_ok reset_password
            (reset_request cfg0 "ada@example.com") _ _).
  - cbn. do 4 right. left. reflexivity.
  - cbn. left. reflexivity.
Defined.

Lemma unset_configuration_is_not_detected_witness :
  exists r,
    calls (run (signup cfg_unset signup_request) upstream_ok) = [ r ]
    /\ req_url r = "undefined/api/v1/users?activate=true"
    /\ In ("Authorization", "SSWS undefined") (req_headers r).
Proof.
  exact (unset_configuration_is_not_detected cfg_unset signup_request
           upstream_ok eq_refl eq_refl eq_refl).
Defined.

Lemma bearer_token_is_first_word_witness :
  exists token rest,
    "Bearer eyJraWQ trailing words" = "Bearer " ++ token ++ rest
    /\ bearer_token (Some "Bearer eyJraWQ trailing words") = Some token
    /\ has_space token = false
    /\ (rest = "" \/ exists rest', rest = String " " rest').
Proof.
  exact (bearer_token_is_first_word "Bearer eyJraWQ trailing words" eq_refl).
Defined.

Lemma handlers_read_only_their_inputs_witness :
  run (reset_password cfg0
         (mkRequest None [ ("email", JStr "ada@example.com") ]))
    upstream_ok
  = run (reset_password cfg0
           (mkRequest (Some "Bearer eyJraWQ")
              [ ("admin", JBool true); ("email", JStr "ada@example.com") ]))
      upstream_ok.
Proof.
  exact (proj1 (proj2 (proj2
           (handlers_read_only_their_inputs cfg0 upstream_ok None
              (Some "Bearer eyJraWQ")
              [ ("email", JStr "ada@example.com") ]
              [ ("admin", JBool true); ("email", JStr "ada@example.com") ])))
           eq_refl).
Defined.

Lemma rejected_token_on_both_routes_witness :
  response_of (run (get_profile cfg0 (bearer [])) upstream_down)
  = Some (failure 401 "Failed to fetch user profile")
  /\ response_of (run (update_profile cfg0 (bearer [])) upstream_down)
     = Some (failure 401 "Invalid token").
Proof.
  destruct (rejected_token_on_both_routes cfg0 (bearer []) upstream_down
              (mkJsError None "connect ECONNREFUSED") eq_refl eq_refl)
    as (_ & Hget & Hput & _).
  exact (conj Hget Hput).
Defined.

Lemma fill_profile_idempotent_plain_witness :
  exists patch,
    fill_profile [ ("firstName", JStr "Ada"); ("shoeSize", JNum 38);
                   ("city", JNull) ]
    = Ret patch
    /\ fill_profile patch = Ret patch.
Proof.
  refine (fill_profile_idempotent_plain
            [ ("firstName", JStr "Ada"); ("shoeSize", JNum 38);
              ("city", JNull) ] _ _).
  - repeat constructor; cbn; intuition discriminate.
  - repeat constructor.
Defined.

(** ** Requests whose body was never parsed *)

(** On a request whose [req.body] is an object the routes are the handlers
    studied above. *)
Lemma routes_on_parsed_body cfg authHeader o :
  signup_route cfg (parsed authHeader o)
  = signup cfg (mkRequest authHeader o)
  /\ login_route cfg (parsed authHeader o)
     = login cfg (mkRequest authHeader o)
  /\ update_profile_route cfg (parsed authHeader o)
     = update_profile cfg (mkRequest authHeader o)
  /\ reset_password_route cfg (parsed authHeader o)
     = reset_password cfg (mkRequest authHeader o)
  /\ logout_route cfg (parsed authHeader o)
     = logout cfg (mkRequest authHeader o).
Proof. repeat split. Qed.

(** When [req.body] is [undefined] the destructuring at the top of Signup,
    Login, Password Reset and Logout throws inside the [try], so the
    request is answered by the [catch] clause -- 500 for Signup and Logout,
    401 for Login, 400 for Password Reset -- without any upstream call and
    with the [TypeError] in the log; Update Profile reads the body only
    after a successful userinfo call, and then answers 500 without a patch
    call. *)
Theorem unparsed_body_is_answered_by_catch cfg authHeader up :
  (response_of (run (signup_route cfg (unparsed authHeader)) up)
   = Some (failure 500 "Error creating user account")
   /\ calls (run (signup_route cfg (unparsed authHeader)) up) = []
   /\ length (console (run (signup_route cfg (unparsed authHeader)) up))
      = 1%nat)
  /\ (response_of (run (login_route cfg (unparsed authHeader)) up)
      = Some (failure 401 "Authentication failed")
      /\ calls (run (login_route cfg (unparsed authHeader)) up) = []
      /\ length (console (run (login_route cfg (unparsed authHeader)) up))
         = 1%nat)
  /\ (response_of (run (reset_password_route cfg (unparsed authHeader)) up)
      = Some (failure 400 "Failed to send password reset email")
      /\ calls (run (reset_password_route cfg (unparsed authHeader)) up) = []
      /\ length
           (console (run (reset_password_route cfg (unparsed authHeader)) up))
         = 1%nat)
  /\ (response_of (run (logout_route cfg (unparsed authHeader)) up)
      = Some (failure 500 "Failed to logout")
      /\ calls (run (logout_route cfg (unparsed authHeader)) up) = []
      /\ length (console (run (logout_route cfg (unparsed authHeader)) up))
         = 1%nat)
  /\ (no_bearer authHeader = false ->
      forall resp sub,
        up [] (userinfo_request cfg authHeader) = Resolved resp ->
        GetV (resp_data resp) "sub" = inr sub ->
        response_of (run (update_profile_route cfg (unparsed authHeader)) up)
        = Some (failure 500 "Failed to update profile")
        /\ calls (run (update_profile_route cfg (unparsed authHeader)) up)
           = [ userinfo_request cfg authHeader ]).
Proof.
  repeat match goal with |- _ /\ _ => split end; try reflexivity.
  intros Hb resp sub Hup Hsub.
  unfold run, update_profile_route, unparsed.
  cbn [express_authorization]. rewrite Hb.
  unfold userinfo_request in Hup. cbn in Hup |- *. rewrite Hup. cbn.
  rewrite Hsub. split; reflexivity.
Qed.

Lemma unparsed_body_is_answered_by_catch_witness :
  response_of
    (run (update_profile_route cfg0 (unparsed (Some "Bearer eyJraWQ")))
       upstream_ok)
  = Some (failure 500 "Failed to update profile")
  /\ calls
       (run (update_profile_route cfg0 (unparsed (Some "Bearer eyJraWQ")))
          upstream_ok)
     = [ userinfo_request cfg0 (Some "Bearer eyJraWQ") ].
Proof.
  exact (proj2 (proj2 (proj2 (proj2
           (unparsed_body_is_answered_by_catch cfg0 (Some "Bearer eyJraWQ")
              upstream_ok))))
           eq_refl _ (JStr "00u1") eq_refl eq_refl).
Defined.

(** ** The URL of the reset call *)

(** The caller's email is spliced into the path of the reset call as it
    is, without escaping: for every non-empty string, whatever characters
    it holds, the one call made is a POST with the [SSWS] API token to the
    configured domain followed by [/api/v1/users/], the string itself, and
    [/lifecycle/reset_password?sendEmail=true]. *)
Theorem reset_url_splices_email_unescaped cfg authHeader o up email :
  own_get o "email" = Some (JStr email) ->
  email <> "" ->
  exists r,
    calls (run (reset_password cfg (mkRequest authHeader o)) up) = [ r ]
    /\ req_method r = POST
    /\ req_url r
       = env (OKTA_DOMAIN cfg) ++ "/api/v1/users/" ++ email
           ++ "/lifecycle/reset_password?sendEmail=true"
    /\ req_headers r = oktaHeaders cfg.
Proof.
  intros Hemail Hne.
  pose proof (nonempty_string_is_present o "email" email Hemail Hne) as Hp.
  rewrite reset_password_run. cbn [body]. rewrite Hp.
  unfold js_get. rewrite Hemail. cbn [ToString].
  exists (reset_request cfg email).
  split; [destruct (up [] _); reflexivity|]. repeat split.
Qed.

(** ... for instance for a string that walks out of [/api/v1/users/]. *)
Lemma reset_url_splices_email_unescaped_witness :
  exists r,
    calls (run (reset_password cfg0
                  (mkRequest None
                     [ ("email", JStr "x/../../../../oauth2/v1/revoke?") ]))
             upstream_ok)
    = [ r ]
    /\ req_method r = POST
    /\ req_url r
       = "https://dev-1.okta.com/api/v1/users/x/../../../../oauth2/v1/revoke?/lifecycle/reset_password?sendEmail=true"
    /\ req_headers r = oktaHeaders cfg0.
Proof.
  refine (reset_url_splices_email_unescaped cfg0 None
            [ ("email", JStr "x/../../../../oauth2/v1/revoke?") ]
            upstream_ok "x/../../../../oauth2/v1/revoke?" eq_refl _).
  discriminate.
Defined.
